(** * Banking-Automation-Agent: the classification-and-action decision core

    A shallow embedding of the Python sources

      - [src/classifier.py]          (IntentClassifier)
      - [src/llm_agent.py]           (LLMAgent)
      - [src/ocr_engine.py]          (OCREngine)
      - [src/response_generator.py]  (ResponseGenerator)
      - [src/email_processor.py]     (EmailProcessor.load_email)
      - [pipeline.py]                (EmailProcessingPipeline)

    Modelling conventions.

    - A Python [dict] with string keys that is used as a record of optional
      fields (an email, a category description) is a [gmap string pyval];
      dicts that the code always builds with the same keys (a classification,
      an action, a response) are records.
    - A Python [str] is a [string] of 8-bit characters: case folding,
      whitespace and the regular-expression classes are the ASCII ones.
    - A Python [float] is a rational number [Q]; literals denote their
      decimal value, arithmetic is exact, and there is no NaN or infinity.
    - An exception is a value of type [exn]; code that can raise returns
      a sum [exn + A], and [try ... except Exception] is a [match] on it. *)

From Stdlib Require Import Ascii QArith Qabs Lqa.
From stdpp Require Import base strings list gmap pretty.

(** ** Python values *)

#[local] Unset Elimination Schemes.
Inductive pyval : Type :=
| PNone
| PBool (b : bool)
| PInt (z : Z)
| PFloat (q : Q)
| PStr (s : string)
| PList (l : list pyval).
#[local] Set Elimination Schemes.

(** [v == s] for a string literal [s]: values of another type are unequal. *)
Definition py_eq_str (v : pyval) (s : string) : bool :=
  match v with
  | PStr t => String.eqb t s
  | _ => false
  end.

(** [d.get(k, dflt)] *)
Definition dict_get (d : gmap string pyval) (k : string) (dflt : pyval) : pyval :=
  default dflt (d !! k).

(** ** Exceptions *)

Inductive exn : Type :=
| KeyError (key : string)
| Exception (msg : string).

(** [str(e)]: a [KeyError] prints the [repr] of its key. *)
Definition str_exn (e : exn) : string :=
  match e with
  | KeyError k => "'" +:+ k +:+ "'"
  | Exception m => m
  end.

(** [d[k]] *)
Definition dict_item (d : gmap string pyval) (k : string) : exn + pyval :=
  match d !! k with
  | Some v => inr v
  | None => inl (KeyError k)
  end.

(** ** Strings *)

Definition LF : ascii := "010"%char.

(** [str.isspace] on one ASCII character. *)
Definition py_isspace (c : ascii) : bool :=
  let n := nat_of_ascii c in
  (9 <=? n)%nat && (n <=? 13)%nat || (28 <=? n)%nat && (n <=? 32)%nat.

Definition is_upper (c : ascii) : bool :=
  let n := nat_of_ascii c in (65 <=? n)%nat && (n <=? 90)%nat.

Definition is_lower (c : ascii) : bool :=
  let n := nat_of_ascii c in (97 <=? n)%nat && (n <=? 122)%nat.

Definition is_digit (c : ascii) : bool :=
  let n := nat_of_ascii c in (48 <=? n)%nat && (n <=? 57)%nat.

Definition lower_ascii (c : ascii) : ascii :=
  if is_upper c then ascii_of_nat (nat_of_ascii c + 32) else c.

(** [s.lower()] *)
Fixpoint lower (s : string) : string :=
  match s with
  | EmptyString => EmptyString
  | String c s' => String (lower_ascii c) (lower s')
  end.

Fixpoint lstrip (s : string) : string :=
  match s with
  | String c s' => if py_isspace c then lstrip s' else s
  | EmptyString => EmptyString
  end.

Definition rstrip (s : string) : string :=
  String.rev (lstrip (String.rev s)).

(** [s.strip()] *)
Definition strip (s : string) : string := rstrip (lstrip s).

(** [s.startswith(p)] *)
Definition startswith (s p : string) : bool := String.prefix p s.

(** [s.replace(old, new)] for a non-empty [old]: the occurrences are
    replaced from left to right without overlap.  [skip] counts the
    characters of a matched occurrence that are still to be dropped. *)
Fixpoint replace_go (old new s : string) (skip : nat) : string :=
  match s with
  | EmptyString => EmptyString
  | String c s' =>
      match skip with
      | S k => replace_go old new s' k
      | O =>
          if String.prefix old s
          then new +:+ replace_go old new s' (String.length old - 1)
          else String c (replace_go old new s' 0)
      end
  end.

Definition replace (s old new : string) : string :=
  match old with
  | EmptyString => s
  | _ => replace_go old new s 0
  end.

(** [s.split(sep)] for a one-character separator: never the empty list. *)
Fixpoint split_on (sep : ascii) (s : string) : list string :=
  match s with
  | EmptyString => [EmptyString]
  | String c s' =>
      if Ascii.eqb c sep then EmptyString :: split_on sep s'
      else match split_on sep s' with
           | w :: ws => String c w :: ws
           | [] => [String c EmptyString]
           end
  end.

(** [needle in hay] *)
Fixpoint contains (hay needle : string) : bool :=
  String.prefix needle hay ||
  match hay with
  | EmptyString => false
  | String _ hay' => contains hay' needle
  end.

(** ** Floats as rationals *)

Definition Qlt_bool (a b : Q) : bool := negb (Qle_bool b a).

(** Python's [max(a, b)]: [b] is taken only when it is strictly greater. *)
Definition py_max (a b : Q) : Q := if Qlt_bool a b then b else a.

(** Round to the nearest integer, ties to the even one. *)
Definition round_half_even (q : Q) : Z :=
  let n := Qnum q in
  let d := Z.pos (Qden q) in
  let fl := (n / d)%Z in
  let r2 := (2 * (n - fl * d))%Z in
  if (r2 <? d)%Z then fl
  else if (d <? r2)%Z then (fl + 1)%Z
  else if Z.even fl then fl else (fl + 1)%Z.

Definition two_digits (n : Z) : string :=
  if (n <? 10)%Z then "0" +:+ pretty n else pretty n.

(** [f"{q:.2f}"] *)
Definition format_2f (q : Q) : string :=
  let h := round_half_even (Qabs q * 100) in
  (if Qlt_bool q 0 then "-" else "")
    +:+ pretty (h / 100)%Z +:+ "." +:+ two_digits (h mod 100)%Z.

(** ** [classifier.py] and [llm_agent.py]: the decision rules *)

Record classification : Type := Classification {
  intent : string;
  confidence : Q;
  sub_category : option string;
  reasoning : string;
  (** [None] until [IntentClassifier.classify] adds the key. *)
  category_info : option (gmap string pyval)
}.

Record action : Type := Action {
  action_type : string;
  action_priority : pyval;
  reason : string;
  assigned_to : string
}.

(** [IntentClassifier.should_escalate] *)
Definition should_escalate (c : classification) (email_data : gmap string pyval)
  : bool * string :=
  let intent := intent c in
  let confidence := confidence c in
  let priority := dict_get email_data "priority" (PStr "medium") in
  if Qlt_bool confidence 0.6 then
    (true, "Low confidence classification (" +:+ format_2f confidence +:+ ")")
  else if py_eq_str priority "critical" then
    (true, "Critical priority email")
  else if String.eqb intent "fraud_complaint" then
    (true, "Fraud complaint requires immediate review")
  else if String.eqb intent "loan_request" then
    (true, "Loan application requires specialist review")
  else if String.eqb intent "account_issue" && py_eq_str priority "high" then
    (true, "High priority account issue")
  else
    (false, "Standard processing").

(** [LLMAgent.determine_action] *)
Definition determine_action (email_data : gmap string pyval) (intent : string)
    (confidence : Q) : action :=
  let priority := dict_get email_data "priority" (PStr "medium") in
  let '(action_type, reason, assigned_to) :=
    if Qlt_bool confidence 0.6 then
      ("escalate", "Low confidence in classification, requires human review",
       "human_review_team")
    else if String.eqb intent "fraud_complaint" || py_eq_str priority "critical" then
      ("escalate", "Urgent issue requiring immediate attention",
       if String.eqb intent "fraud_complaint" then "fraud_department"
       else "escalation_team")
    else if String.eqb intent "loan_request" then
      ("escalate", "Loan application requires underwriting review",
       "loan_department")
    else if String.eqb intent "kyc_update" then
      ("reply", "Standard KYC update, can be processed automatically",
       "kyc_team")
    else if String.eqb intent "account_issue" then
      if py_eq_str priority "high" then
        ("escalate", "High priority account issue", "customer_support_tier2")
      else
        ("reply", "Standard account issue", "customer_support")
    else
      ("reply", "General inquiry, can be handled with standard response",
       "customer_support")
  in
  {| action_type := action_type;
     action_priority := priority;
     reason := reason;
     assigned_to := assigned_to |}.


(** ** [float(s)] on decimal literals

    The grammar of Python's [float] for finite decimal numbers: optional
    sign, digits with optional [_] separators, optional fraction, optional
    exponent.  [inf] and [nan] have no rational value and are rejected. *)

Definition digit_val (c : ascii) : Z := Z.of_nat (nat_of_ascii c - 48).

(** [digit (["_"] digit)*]: the value read, the number of digits and the rest. *)
Fixpoint digitpart_go (s : string) (acc : Z) (n : nat) : Z * nat * string :=
  match s with
  | String c s' =>
      if is_digit c then digitpart_go s' (10 * acc + digit_val c)%Z (S n)
      else if Ascii.eqb c "_" && (0 <? n)%nat then
        match s' with
        | String d s'' =>
            if is_digit d then digitpart_go s'' (10 * acc + digit_val d)%Z (S n)
            else (acc, n, s)
        | EmptyString => (acc, n, s)
        end
      else (acc, n, s)
  | EmptyString => (acc, n, s)
  end.

(** The mantissa as an integer, the number of fraction digits, the rest. *)
Definition parse_mantissa (s : string) : option (Z * nat * string) :=
  let '(i, ni, r1) := digitpart_go s 0 0 in
  match r1 with
  | String "."%char r2 =>
      let '(f, nf, r3) := digitpart_go r2 0 0 in
      if (ni =? 0)%nat && (nf =? 0)%nat then None
      else Some ((i * 10 ^ Z.of_nat nf + f)%Z, nf, r3)
  | _ => if (ni =? 0)%nat then None else Some (i, 0%nat, r1)
  end.

Definition parse_exponent (s : string) : option Z :=
  match s with
  | EmptyString => Some 0%Z
  | String c r =>
      if Ascii.eqb c "e" || Ascii.eqb c "E" then
        let '(neg, r') :=
          match r with
          | String "-"%char r' => (true, r')
          | String "+"%char r' => (false, r')
          | _ => (false, r)
          end in
        match digitpart_go r' 0 0 with
        | (_, O, _) => None
        | (e, _, EmptyString) => Some (if neg then (- e)%Z else e)
        | _ => None
        end
      else None
  end.

Definition scale (m : Z) (e : Z) : Q :=
  if (0 <=? e)%Z then Qmake (m * 10 ^ e) 1
  else Qmake m (Z.to_pos (10 ^ (- e))).

(** [float(s)]: [None] stands for [ValueError]. *)
Definition py_float (s : string) : option Q :=
  let t := strip s in
  let '(neg, u) :=
    match t with
    | String "-"%char u => (true, u)
    | String "+"%char u => (false, u)
    | _ => (false, t)
    end in
  match parse_mantissa u with
  | None => None
  | Some (m, nf, r) =>
      match parse_exponent r with
      | None => None
      | Some e => Some (scale (if neg then (- m)%Z else m) (e - Z.of_nat nf))
      end
  end.

(** ** The error monad of code that can raise *)

#[global] Instance exn_ret : MRet (sum exn) := λ A x, inr x.
#[global] Instance exn_fmap : FMap (sum exn) := λ A B f m,
  match m with
  | inl e => inl e
  | inr x => inr (f x)
  end.
#[global] Instance exn_bind : MBind (sum exn) := λ A B f m,
  match m with
  | inl e => inl e
  | inr x => f x
  end.

(** ** [LLMAgent.classify_intent] and [IntentClassifier.classify] *)

Definition set_intent (c : classification) (i : string) : classification :=
  {| intent := i; confidence := confidence c; sub_category := sub_category c;
     reasoning := reasoning c; category_info := category_info c |}.

Definition set_confidence (c : classification) (q : Q) : classification :=
  {| intent := intent c; confidence := q; sub_category := sub_category c;
     reasoning := reasoning c; category_info := category_info c |}.

Definition set_sub_category (c : classification) (s : option string) : classification :=
  {| intent := intent c; confidence := confidence c; sub_category := s;
     reasoning := reasoning c; category_info := category_info c |}.

Definition set_reasoning (c : classification) (r : string) : classification :=
  {| intent := intent c; confidence := confidence c; sub_category := sub_category c;
     reasoning := r; category_info := category_info c |}.

Definition set_category_info (c : classification) (i : gmap string pyval)
  : classification :=
  {| intent := intent c; confidence := confidence c; sub_category := sub_category c;
     reasoning := reasoning c; category_info := Some i |}.

(** The body of the [for] loop of [_parse_classification_response];
    [float] can raise. *)
Definition parse_line (line : string) (result : classification)
  : exn + classification :=
  let line := strip line in
  if startswith line "INTENT:" then
    inr (set_intent result (lower (strip (replace line "INTENT:" ""))))
  else if startswith line "CONFIDENCE:" then
    let conf_str := strip (replace line "CONFIDENCE:" "") in
    match py_float conf_str with
    | Some q => inr (set_confidence result q)
    | None =>
        inl (Exception ("could not convert string to float: '" +:+ conf_str +:+ "'"))
    end
  else if startswith line "SUB_CATEGORY:" then
    let sub_cat := strip (replace line "SUB_CATEGORY:" "") in
    inr (set_sub_category result
           (if String.eqb (lower sub_cat) "none" then None else Some sub_cat))
  else if startswith line "REASONING:" then
    inr (set_reasoning result (strip (replace line "REASONING:" "")))
  else inr result.

(** The loop inside [try]: an exception leaves it with the fields
    assigned so far. *)
Fixpoint parse_lines (lines : list string) (result : classification)
  : classification :=
  match lines with
  | [] => result
  | line :: lines' =>
      match parse_line line result with
      | inr result' => parse_lines lines' result'
      | inl _ => result
      end
  end.

(** [LLMAgent._parse_classification_response] *)
Definition _parse_classification_response (response : string) : classification :=
  let result :=
    {| intent := "unknown"; confidence := 0.0; sub_category := None;
       reasoning := ""; category_info := None |} in
  parse_lines (split_on LF (strip response)) result.

(** [LLMAgent.classify_intent].  [response] is what [generate_completion]
    returned for the prompt: [None] when the call failed.  The prompt reads
    three keys of the email with [email_data[...]]. *)
Definition classify_intent (email_data : gmap string pyval)
    (response : option string) : exn + classification :=
  _ ← dict_item email_data "subject";
  _ ← dict_item email_data "sender";
  _ ← dict_item email_data "body";
  match response with
  | None | Some EmptyString =>
      inr {| intent := "unknown"; confidence := 0.0; sub_category := None;
             reasoning := "Failed to classify"; category_info := None |}
  | Some response => inr (_parse_classification_response response)
  end.

Definition category (description : string) (keywords typical_actions : list string)
    (priority_boost : bool) : gmap string pyval :=
  list_to_map
    [("description", PStr description);
     ("keywords", PList (PStr <$> keywords));
     ("typical_actions", PList (PStr <$> typical_actions));
     ("priority_boost", PBool priority_boost)].

(** [IntentClassifier.INTENT_CATEGORIES] *)
Definition INTENT_CATEGORIES_items : list (string * gmap string pyval) :=
  [("loan_request",
    category "Customer requesting a loan (home, auto, business, personal)"
      ["loan"; "mortgage"; "financing"; "borrow"; "credit"]
      ["escalate"] true);
   ("kyc_update",
    category "Customer updating KYC/personal information (address, employment, documents)"
      ["update"; "kyc"; "address"; "employment"; "change"; "verify"]
      ["reply"] false);
   ("account_issue",
    category "Problems with account access, transactions, statements, or technical issues"
      ["problem"; "issue"; "error"; "unable"; "cannot"; "access"; "login"]
      ["reply"; "escalate"] true);
   ("fraud_complaint",
    category "Reporting fraud, unauthorized transactions, security concerns, or suspicious activity"
      ["fraud"; "unauthorized"; "suspicious"; "theft"; "hack"; "scam"; "phishing"]
      ["escalate"] true);
   ("general_inquiry",
    category "General questions about products, services, rates, or information requests"
      ["question"; "inquiry"; "information"; "rate"; "fee"; "service"; "product"]
      ["reply"] false)].

Definition INTENT_CATEGORIES : gmap string (gmap string pyval) :=
  list_to_map INTENT_CATEGORIES_items.

(** The part of [IntentClassifier.classify] after the call of the agent. *)
Definition validate_intent (c : classification) : classification :=
  let c :=
    match INTENT_CATEGORIES !! intent c with
    | None =>
        set_confidence (set_intent c "general_inquiry")
          (py_max 0.5 (confidence c * 0.7))
    | Some _ => c
    end in
  set_category_info c (default ∅ (INTENT_CATEGORIES !! intent c)).

(** [IntentClassifier.classify] *)
Definition classify (email_data : gmap string pyval) (response : option string)
  : exn + classification :=
  classification ← classify_intent email_data response;
  mret (validate_intent classification).

(** ** [ocr_engine.py]: regular expressions

    A backtracking matcher with the priorities of Python's [re]: the left
    alternative first, repetitions greedy.  The continuation receives the
    character before the current position (for [\b]) and the rest of the
    text.  An iteration of [Star] must consume a character, so that there
    are at most as many iterations as characters left. *)

Inductive regex : Type :=
| Eps
| Chr (p : ascii → bool)
| Seq (r1 r2 : regex)
| Alt (r1 r2 : regex)
| Star (r : regex)
| Bnd.

Definition is_word (c : option ascii) : bool :=
  match c with
  | Some c => is_upper c || is_lower c || is_digit c || Ascii.eqb c "_"
  | None => false
  end.

Definition head_char (s : string) : option ascii :=
  match s with
  | String c _ => Some c
  | EmptyString => None
  end.

Fixpoint re_match {A} (r : regex) (prev : option ascii) (s : string)
    (k : option ascii → string → option A) : option A :=
  match r with
  | Eps => k prev s
  | Chr p =>
      match s with
      | String c s' => if p c then k (Some c) s' else None
      | EmptyString => None
      end
  | Seq r1 r2 => re_match r1 prev s (λ prev' s', re_match r2 prev' s' k)
  | Alt r1 r2 =>
      match re_match r1 prev s k with
      | Some a => Some a
      | None => re_match r2 prev s k
      end
  | Star r1 =>
      (fix star (n : nat) (prev : option ascii) (s : string) : option A :=
         match n with
         | O => k prev s
         | S n' =>
             match re_match r1 prev s
                     (λ prev' s',
                        if (String.length s' <? String.length s)%nat
                        then star n' prev' s' else None) with
             | Some a => Some a
             | None => k prev s
             end
         end) (String.length s) prev s
  | Bnd => if xorb (is_word prev) (is_word (head_char s)) then k prev s else None
  end.

Fixpoint Lit (s : string) : regex :=
  match s with
  | EmptyString => Eps
  | String c s' => Seq (Chr (Ascii.eqb c)) (Lit s')
  end.

Definition Opt (r : regex) : regex := Alt r Eps.
Definition Plus (r : regex) : regex := Seq r (Star r).

Fixpoint Rep (n : nat) (r : regex) : regex :=
  match n with
  | O => Eps
  | S n' => Seq r (Rep n' r)
  end.

Fixpoint Alts (rs : list regex) (last : regex) : regex :=
  match rs with
  | [] => last
  | r :: rs' => Alt r (Alts rs' last)
  end.

(** A pattern [pre(group)post] with one capturing group; a pattern without
    a group is its own group. *)
Record pattern : Type := Pattern {
  re_pre : regex;
  re_group : regex;
  re_post : regex
}.

Definition take_str (n : nat) (s : string) : string := String.substring 0 n s.

(** A match that starts at the current position: the text of the group and
    the length of the whole match. *)
Definition match_at (p : pattern) (prev : option ascii) (s : string)
  : option (string * nat) :=
  re_match (re_pre p) prev s (λ p1 s1,
    re_match (re_group p) p1 s1 (λ p2 s2,
      re_match (re_post p) p2 s2 (λ _ s3,
        Some (take_str (String.length s1 - String.length s2) s1,
              String.length s - String.length s3)%nat))).

(** [pattern.findall(text)]: the matches from left to right, without
    overlap.  [skip] counts the characters of the last match that are still
    to be passed. *)
Fixpoint findall_go (p : pattern) (prev : option ascii) (s : string) (skip : nat)
  : list string :=
  match s with
  | EmptyString =>
      match skip, match_at p prev s with
      | O, Some (g, _) => [g]
      | _, _ => []
      end
  | String c s' =>
      match skip with
      | S k => findall_go p (Some c) s' k
      | O =>
          match match_at p prev s with
          | Some (g, len) => g :: findall_go p (Some c) s' (len - 1)
          | None => findall_go p (Some c) s' 0
          end
      end
  end.

Definition findall (p : pattern) (text : string) : list string :=
  findall_go p None text 0.

Definition whole (r : regex) : pattern :=
  {| re_pre := Eps; re_group := r; re_post := Eps |}.

Definition one_of (s : string) (c : ascii) : bool :=
  contains s (String c EmptyString).

Definition Digit : regex := Chr is_digit.
Definition Space : regex := Chr py_isspace.
Definition alnum (c : ascii) : bool := is_lower c || is_upper c || is_digit c.

(** [(ACC|BUS-ACC)-\d{4}-\d{4}] *)
Definition account_number_pattern : pattern :=
  {| re_pre := Eps;
     re_group := Alt (Lit "ACC") (Lit "BUS-ACC");
     re_post :=
       Seq (Lit "-") (Seq (Rep 4 Digit) (Seq (Lit "-") (Rep 4 Digit))) |}.

(** [\$[\d,]+\.?\d*] *)
Definition amount_pattern : pattern :=
  whole (Seq (Lit "$")
          (Seq (Plus (Chr (λ c, is_digit c || Ascii.eqb c ",")))
            (Seq (Opt (Lit ".")) (Star Digit)))).

Definition months : list string :=
  ["January"; "February"; "March"; "April"; "May"; "June"; "July"; "August";
   "September"; "October"; "November"].

(** [(?:January|...|December)\s+\d{1,2},?\s+\d{4}]
    [|\d{1,2}/\d{1,2}/\d{4}|\d{4}-\d{2}-\d{2}] *)
Definition date_pattern : pattern :=
  whole
    (Alt
       (Seq (Alts (Lit <$> months) (Lit "December"))
          (Seq (Plus Space)
             (Seq (Seq Digit (Opt Digit))
                (Seq (Opt (Lit ",")) (Seq (Plus Space) (Rep 4 Digit))))))
       (Alt
          (Seq (Seq Digit (Opt Digit))
             (Seq (Lit "/")
                (Seq (Seq Digit (Opt Digit)) (Seq (Lit "/") (Rep 4 Digit)))))
          (Seq (Rep 4 Digit)
             (Seq (Lit "-") (Seq (Rep 2 Digit) (Seq (Lit "-") (Rep 2 Digit))))))).

(** [\(\d{3}\)\s*\d{3}-\d{4}] *)
Definition phone_pattern : pattern :=
  whole (Seq (Lit "(") (Seq (Rep 3 Digit) (Seq (Lit ")")
          (Seq (Star Space) (Seq (Rep 3 Digit) (Seq (Lit "-") (Rep 4 Digit))))))).

(** [[a-zA-Z0-9._%+-]+@[a-zA-Z0-9.-]+\.[a-zA-Z]{2,}] *)
Definition email_pattern : pattern :=
  whole (Seq (Plus (Chr (λ c, alnum c || one_of "._%+-" c)))
          (Seq (Lit "@")
            (Seq (Plus (Chr (λ c, alnum c || one_of ".-" c)))
              (Seq (Lit ".")
                (Seq (Rep 2 (Chr (λ c, is_lower c || is_upper c)))
                     (Star (Chr (λ c, is_lower c || is_upper c)))))))).

Definition cap_word : regex := Seq (Chr is_upper) (Plus (Chr is_lower)).

(** [\b([A-Z][a-z]+(?:\s+[A-Z][a-z]+){1,2})\b] *)
Definition name_pattern : pattern :=
  let more := Seq (Plus Space) cap_word in
  {| re_pre := Bnd;
     re_group := Seq cap_word (Seq more (Opt more));
     re_post := Bnd |}.

(** ** [ocr_engine.py]: structured data *)

(** [OCREngine._parse_amount] *)
Definition _parse_amount (amount_str : string) : Q :=
  let cleaned := replace (replace amount_str "$" "") "," "" in
  match py_float cleaned with
  | Some q => q
  | None => 0.0
  end.

(** [list(set(xs))]: each value once, in the order of the set. *)
Definition list_set (xs : list string) : list string :=
  elements (list_to_set xs : gset string).

Definition false_positives : gset string :=
  list_to_set
    ["Account Number"; "Business Name"; "Loan Amount"; "Annual Income";
     "Credit Score"; "Date Birth"; "Phone Number"; "Email Address";
     "Net Profit"; "Total Revenue"; "Account Holder"; "Primary Account";
     "Secondary Account"; "Business Information"; "Loan Request";
     "Financial Summary"; "Supporting Documents"; "New Address";
     "Previous Address"; "Effective Date"; "Employment Update";
     "Return Date"; "Transaction Date"; "Credit Card"].

(** [OCREngine._extract_names] *)
Definition _extract_names (text : string) : list string :=
  let names := findall name_pattern text in
  let filtered_names := filter (λ name, name ∉ false_positives) names in
  list_set filtered_names.

Record structured_data_dict : Type := StructuredData {
  account_numbers : list string;
  amounts : list Q;
  dates : list string;
  phone_numbers : list string;
  emails : list string;
  names : list string
}.

(** [OCREngine.extract_structured_data]; no step of the [try] block raises
    on a [str]. *)
Definition extract_structured_data (text : string) : structured_data_dict :=
  let account_matches := findall account_number_pattern text in
  let amount_matches := findall amount_pattern text in
  let date_matches := findall date_pattern text in
  let phone_matches := findall phone_pattern text in
  let email_matches := findall email_pattern text in
  {| account_numbers := list_set account_matches;
     amounts := _parse_amount <$> amount_matches;
     dates := list_set date_matches;
     phone_numbers := list_set phone_matches;
     emails := list_set email_matches;
     names := _extract_names text |}.

(** ** [response_generator.py] *)

(** [s.split()]: the maximal runs of characters that are not whitespace. *)
Fixpoint split_ws_go (cur : option string) (s : string) : list string :=
  match s with
  | EmptyString => option_list (String.rev <$> cur)
  | String c s' =>
      if py_isspace c
      then option_list (String.rev <$> cur) ++ split_ws_go None s'
      else split_ws_go (Some (String c (default EmptyString cur))) s'
  end.

Definition split_ws (s : string) : list string := split_ws_go None s.

Fixpoint drop_str (n : nat) (s : string) : string :=
  match n, s with
  | S n', String _ s' => drop_str n' s'
  | _, _ => s
  end.

(** [s[-n:]] for [n > 0] *)
Definition last_chars (n : nat) (s : string) : string :=
  drop_str (String.length s - n) s.

(** The [{'all_text': ..., 'structured_data': ...}] dict of the pipeline;
    [structured] is [None] for the empty dict. *)
Record extracted : Type := Extracted {
  all_text : string;
  structured : option structured_data_dict
}.

Record response : Type := Response {
  response_text : string;
  template_used : option string;
  personalization_data : gmap string pyval;
  word_count : Z;
  character_count : Z
}.

(** [LLMAgent.generate_response]; [completion] is what [generate_completion]
    returned.  The prompt reads two keys of the email with [email_data[...]]. *)
Definition generate_response (email_data : gmap string pyval) (intent : string)
    (completion : option string) : exn + string :=
  _ ← dict_item email_data "subject";
  _ ← dict_item email_data "body";
  match completion with
  | None | Some EmptyString =>
      inr "I apologize, but I'm unable to generate a response at this time. Please contact our customer service team directly."
  | Some response => inr response
  end.

(** [ResponseGenerator._extract_personalization_data].  The keys
    [account_numbers], [amounts] and [names] are looked up in the outer
    dict, whose keys are [all_text] and [structured_data]: the three
    tests are false. *)
Definition _extract_personalization_data (email_data : gmap string pyval)
    (extracted_data : option extracted) : gmap string pyval :=
  list_to_map
    [("customer_name", dict_get email_data "sender_name" (PStr ""));
     ("sender_email", dict_get email_data "sender" PNone);
     ("subject", dict_get email_data "subject" PNone)].

(** [ResponseGenerator.generate] with [use_template=True] *)
Definition generate (email_data : gmap string pyval) (intent : string)
    (extracted_data : option extracted) (completion : option string)
  : exn + response :=
  response_text ← generate_response email_data intent completion;
  mret {| response_text := response_text;
          template_used := Some intent;
          personalization_data :=
            _extract_personalization_data email_data extracted_data;
          word_count := Z.of_nat (length (split_ws response_text));
          character_count := Z.of_nat (String.length response_text) |}.

Record quality : Type := Quality {
  has_greeting : bool;
  has_closing : bool;
  appropriate_length : bool;
  has_next_steps : bool;
  professional_tone : bool;
  quality_score : Z;
  quality_level : string
}.

Definition any_in (words : list string) (text : string) : bool :=
  existsb (contains text) words.

Definition points (n : Z) (b : bool) : Z := if b then n else 0%Z.

(** [ResponseGenerator.evaluate_response_quality] *)
Definition evaluate_response_quality (response : response) : quality :=
  let response_text := response_text response in
  let word_count := word_count response in
  let has_greeting := contains (take_str 100 (lower response_text)) "dear" in
  let has_closing :=
    any_in ["regards"; "sincerely"; "thank you"]
      (last_chars 200 (lower response_text)) in
  let appropriate_length := (50 <=? word_count)%Z && (word_count <=? 300)%Z in
  let has_next_steps :=
    any_in ["will"; "next"; "steps"; "process"] (lower response_text) in
  let professional_tone :=
    negb (any_in ["hey"; "gonna"; "wanna"] (lower response_text)) in
  let quality_score :=
    (points 30 has_greeting + points 20 has_closing
     + points 20 appropriate_length + points 15 has_next_steps
     + points 15 professional_tone)%Z in
  {| has_greeting := has_greeting;
     has_closing := has_closing;
     appropriate_length := appropriate_length;
     has_next_steps := has_next_steps;
     professional_tone := professional_tone;
     quality_score := quality_score;
     quality_level :=
       if (80 <=? quality_score)%Z then "high"
       else if (60 <=? quality_score)%Z then "medium" else "low" |}.

(** ** [pipeline.py]

    The collaborators of the pipeline ([self.ocr_engine], [self.classifier],
    [self.response_generator], [self.db_manager]) act on the world outside
    the program: a call takes the state of the world and returns the new
    state with either an exception or a value. *)

Definition io (S A : Type) : Type := S → S * (exn + A).

#[global] Instance io_ret {S} : MRet (io S) := λ A x s, (s, inr x).
#[global] Instance io_bind {S} : MBind (io S) := λ A B f m s,
  match m s with
  | (s', inl e) => (s', inl e)
  | (s', inr x) => f x s'
  end.

Definition raise {S A} (e : exn) : io S A := λ s, (s, inl e).

Definition lift_exn {S A} (m : exn + A) : io S A := λ s, (s, m).

(** [try: m  except Exception as e: h e] *)
Definition try_except {S A} (m : io S A) (h : exn → io S A) : io S A := λ s,
  match m s with
  | (s', inl e) => h e s'
  | (s', inr x) => (s', inr x)
  end.

(** [try: m  finally: f]: an exception of [f] replaces the one of [m]. *)
Definition try_finally {S A} (m : io S A) (f : io S unit) : io S A := λ s,
  match m s with
  | (s', r) =>
      match f s' with
      | (s'', inl e) => (s'', inl e)
      | (s'', inr _) => (s'', r)
      end
  end.

Fixpoint for_each {S A} (xs : list A) (body : A → io S unit) : io S unit :=
  match xs with
  | [] => mret ()
  | x :: xs' => _ ← body x; for_each xs' body
  end.

Record ocr_result : Type := OcrResult {
  raw_text : string;
  ocr_structured_data : structured_data_dict
}.

Class Components (world : Type) : Type := {
  (** [pdf_path.exists()] *)
  path_exists : string → io world bool;
  (** [self.ocr_engine.process_pdf] *)
  ocr_process_pdf : string → io world ocr_result;
  (** [self.classifier.classify] *)
  classifier_classify :
    gmap string pyval → option extracted → io world classification;
  (** [self.response_generator.generate] *)
  generator_generate :
    gmap string pyval → string → option extracted → io world response;
  (** [self.response_generator.evaluate_response_quality] *)
  generator_evaluate_response_quality : response → io world quality;
  (** [self.classifier.llm_agent.determine_action] *)
  agent_determine_action : gmap string pyval → string → Q → io world action;
  (** [next(self.db_manager.get_session())] *)
  db_get_session : io world unit;
  (** the [create_*] calls of [_store_results], for one email *)
  db_create_all :
    gmap string pyval → classification → response → action → option extracted →
    io world unit;
  (** [session.rollback()] and [session.close()] *)
  db_rollback : io world unit;
  db_close : io world unit
}.

Record response_out : Type := ResponseOut {
  text : string;
  out_word_count : Z;
  out_template_used : option string;
  out_quality_score : option Z
}.

(** The result dict of [process_email]; a key that is not set is [None]. *)
Record result : Type := Result {
  email_id : pyval;
  subject : pyval;
  success : bool;
  error : option string;
  result_extracted_data : option (option structured_data_dict);
  result_classification : option classification;
  result_response : option response_out;
  result_action : option action
}.

(** The [result] dict at the start of [process_email]. *)
Definition new_result (email_id subject : pyval) : result :=
  {| email_id := email_id; subject := subject; success := false;
     error := None; result_extracted_data := None;
     result_classification := None; result_response := None;
     result_action := None |}.

Definition py_truthy (v : pyval) : bool :=
  match v with
  | PNone => false
  | PBool b => b
  | PInt z => negb (z =? 0)%Z
  | PFloat q => negb (Qeq_bool q 0)
  | PStr s => negb (String.eqb s "")
  | PList l => negb (bool_decide (l = []))
  end.

Fixpoint chars (s : string) : list pyval :=
  match s with
  | EmptyString => []
  | String c s' => PStr (String c EmptyString) :: chars s'
  end.

(** [type(v).__name__] *)
Definition type_name (v : pyval) : string :=
  match v with
  | PNone => "NoneType"
  | PBool _ => "bool"
  | PInt _ => "int"
  | PFloat _ => "float"
  | PStr _ => "str"
  | PList _ => "list"
  end.

(** [len(v)] and the items of [for x in v] *)
Definition py_items (v : pyval) : exn + list pyval :=
  match v with
  | PStr s => inr (chars s)
  | PList l => inr l
  | _ => inl (Exception ("object of type '" +:+ type_name v +:+ "' has no len()"))
  end.

(** [Path("data/sample_pdfs") / attachment] *)
Definition pdf_path_of (attachment : pyval) : exn + string :=
  match attachment with
  | PStr a =>
      inr (if String.prefix "/" a then a else "data/sample_pdfs/" +:+ a)
  | _ =>
      inl (Exception ("unsupported operand type(s) for /: 'PosixPath' and '"
                      +:+ type_name attachment +:+ "'"))
  end.

(** ** [email_processor.py]: the loader *)

(** [EmailProcessor.load_email] on the parsed JSON object; [None] when
    the record is rejected.  [fromisoformat] raises on a malformed date. *)
Definition load_email (fromisoformat : string → option pyval)
    (email_data : gmap string pyval) : option (gmap string pyval) :=
  if forallb (λ field, bool_decide (is_Some (email_data !! field)))
       ["email_id"; "sender"; "subject"; "body"; "date"]
  then
    match email_data !! "date" with
    | Some (PStr date) =>
        parsed ← fromisoformat (replace date "Z" "+00:00");
        Some (<["date" := parsed]> email_data)
    | _ => Some email_data
    end
  else None.

(** [EmailProcessor.load_all_emails]; [files] are the contents of the
    [email_*.json] files in sorted order, [None] for a file that is not
    readable as a JSON object. *)
Definition load_all_emails (fromisoformat : string → option pyval)
    (files : list (option (gmap string pyval))) : list (gmap string pyval) :=
  omap (λ file, file ≫= load_email fromisoformat) files.

(** ** [pipeline.py]: the pipeline *)

Section Pipeline.
Context {world : Type} `{!Components world}.

(** The state of one [process_email] call: the world and the [result]
    dict that the [try] block fills in. *)
Definition St : Type := world * result.

Definition ext {A} (m : io world A) : io St A := λ '(w, r),
  match m w with
  | (w', x) => ((w', r), x)
  end.

Definition update_result (f : result → result) : io St unit := λ '(w, r),
  ((w, f r), inr ()).

(** [EmailProcessingPipeline._store_results] *)
Definition _store_results (email : gmap string pyval) (c : classification)
    (resp : response) (a : action) (extracted_data : option extracted)
  : io world unit :=
  _ ← db_get_session;
  try_finally
    (try_except (db_create_all email c resp a extracted_data)
                (λ _, db_rollback))
    db_close.

(** The attachment loop: [all_text] and [structured_data] are the
    accumulators. *)
Fixpoint attachments_loop (attachments : list pyval) (all_text : string)
    (structured_data : option structured_data_dict)
  : io world (string * option structured_data_dict) :=
  match attachments with
  | [] => mret (all_text, structured_data)
  | attachment :: rest =>
      pdf_path ← lift_exn (pdf_path_of attachment);
      found ← path_exists pdf_path;
      if (found : bool) then
        ocr_result ← ocr_process_pdf pdf_path;
        attachments_loop rest (all_text +:+ raw_text ocr_result +:+ String LF "")
          (Some (ocr_structured_data ocr_result))
      else attachments_loop rest all_text structured_data
  end.

(** The body of the [try] block of [process_email]. *)
Definition process_email_body (email : gmap string pyval) : io St unit :=
  let attachments := dict_get email "attachments" (PList []) in
  extracted_data ←
    (if py_truthy attachments then
       items ← lift_exn (py_items attachments);
       '(all_text, structured_data) ← ext (attachments_loop items "" None);
       _ ← update_result (λ r,
             {| email_id := email_id r; subject := subject r;
                success := success r; error := error r;
                result_extracted_data := Some structured_data;
                result_classification := result_classification r;
                result_response := result_response r;
                result_action := result_action r |});
       mret (Some {| all_text := all_text; structured := structured_data |})
     else mret None);
  classification ← ext (classifier_classify email extracted_data);
  _ ← update_result (λ r,
        {| email_id := email_id r; subject := subject r;
           success := success r; error := error r;
           result_extracted_data := result_extracted_data r;
           result_classification :=
             Some {| intent := intent classification;
                     confidence := confidence classification;
                     sub_category := sub_category classification;
                     reasoning := reasoning classification;
                     category_info := None |};
           result_response := result_response r;
           result_action := result_action r |});
  response ← ext (generator_generate email (intent classification) extracted_data);
  _ ← update_result (λ r,
        {| email_id := email_id r; subject := subject r;
           success := success r; error := error r;
           result_extracted_data := result_extracted_data r;
           result_classification := result_classification r;
           result_response :=
             Some {| text := response_text response;
                     out_word_count := word_count response;
                     out_template_used := template_used response;
                     out_quality_score := None |};
           result_action := result_action r |});
  quality ← ext (generator_evaluate_response_quality response);
  _ ← update_result (λ r,
        {| email_id := email_id r; subject := subject r;
           success := success r; error := error r;
           result_extracted_data := result_extracted_data r;
           result_classification := result_classification r;
           result_response :=
             Some {| text := response_text response;
                     out_word_count := word_count response;
                     out_template_used := template_used response;
                     out_quality_score := Some (quality_score quality) |};
           result_action := result_action r |});
  action ← ext (agent_determine_action email (intent classification)
                  (confidence classification));
  _ ← update_result (λ r,
        {| email_id := email_id r; subject := subject r;
           success := success r; error := error r;
           result_extracted_data := result_extracted_data r;
           result_classification := result_classification r;
           result_response := result_response r;
           result_action := Some action |});
  _ ← ext (_store_results email classification response action extracted_data);
  update_result (λ r,
    {| email_id := email_id r; subject := subject r;
       success := true; error := error r;
       result_extracted_data := result_extracted_data r;
       result_classification := result_classification r;
       result_response := result_response r;
       result_action := result_action r |}).

Definition set_error (r : result) (msg : string) : result :=
  {| email_id := email_id r; subject := subject r;
     success := success r; error := Some msg;
     result_extracted_data := result_extracted_data r;
     result_classification := result_classification r;
     result_response := result_response r;
     result_action := result_action r |}.

(** Run a block on the [result] dict and return the dict. *)
Definition with_result (r0 : result) (block : io St unit) : io world result :=
  λ w,
    match block (w, r0) with
    | ((w', r), inr _) => (w', inr r)
    | ((w', _), inl e) => (w', inl e)
    end.

(** [EmailProcessingPipeline.process_email]: the two keys are read
    before the [try] block. *)
Definition process_email (email : gmap string pyval) : io world result :=
  email_id ← lift_exn (dict_item email "email_id");
  subject ← lift_exn (dict_item email "subject");
  with_result (new_result email_id subject)
    (try_except (process_email_body email)
       (λ e, update_result (λ r, set_error r (str_exn e)))).

(** The loop of [process_all_emails] over the loaded emails. *)
Fixpoint process_emails (emails : list (gmap string pyval))
  : io world (list result) :=
  match emails with
  | [] => mret []
  | email :: emails' =>
      result ← process_email email;
      results ← process_emails emails';
      mret (result :: results)
  end.

(** [EmailProcessingPipeline.process_all_emails] *)
Definition process_all_emails (fromisoformat : string → option pyval)
    (files : list (option (gmap string pyval))) : io world (list result) :=
  process_emails (load_all_emails fromisoformat files).
End Pipeline.

Arguments St : clear implicits.

Record summary : Type := Summary {
  total_emails : nat;
  successful : nat;
  failed : nat;
  intents : gmap string nat;
  actions : gmap string nat;
  avg_confidence : Q;
  high_confidence : nat;
  low_confidence : nat
}.

(** [m[k] = m.get(k, 0) + 1] *)
Definition count_up (m : gmap string nat) (k : string) : gmap string nat :=
  <[k := default 0%nat (m !! k) + 1]> m.

(** One round of the loop of [generate_summary]: the state is the summary
    and the list [confidences]. *)
Definition summary_step (acc : summary * list Q) (r : result)
  : exn + (summary * list Q) :=
  let '(sm, confidences) := acc in
  if success r then
    match result_classification r with
    | None => inl (KeyError "classification")
    | Some c =>
        match result_action r with
        | None => inl (KeyError "action")
        | Some a =>
            let conf := confidence c in
            inr ({| total_emails := total_emails sm;
                    successful := successful sm;
                    failed := failed sm;
                    intents := count_up (intents sm) (intent c);
                    actions := count_up (actions sm) (action_type a);
                    avg_confidence := avg_confidence sm;
                    high_confidence :=
                      if Qle_bool 0.8 conf then S (high_confidence sm)
                      else high_confidence sm;
                    low_confidence :=
                      if Qle_bool 0.8 conf then low_confidence sm
                      else if Qlt_bool conf 0.6 then S (low_confidence sm)
                      else low_confidence sm |},
                 confidences ++ [conf])
        end
    end
  else inr acc.

Fixpoint summary_loop (results : list result) (acc : summary * list Q)
  : exn + (summary * list Q) :=
  match results with
  | [] => inr acc
  | r :: results' => acc' ← summary_step acc r; summary_loop results' acc'
  end.

(** [EmailProcessingPipeline.generate_summary] *)
Definition generate_summary (results : list result) : exn + summary :=
  let summary0 :=
    {| total_emails := length results;
       successful := length (filter (λ r, success r = true) results);
       failed := length (filter (λ r, success r = false) results);
       intents := ∅; actions := ∅; avg_confidence := 0.0;
       high_confidence := 0; low_confidence := 0 |} in
  '(sm, confidences) ← summary_loop results (summary0, []);
  mret (if bool_decide (confidences = []) then sm
        else {| total_emails := total_emails sm;
                successful := successful sm;
                failed := failed sm;
                intents := intents sm;
                actions := actions sm;
                avg_confidence :=
                  (foldl Qplus 0 confidences / inject_Z (Z.of_nat (length confidences)))%Q;
                high_confidence := high_confidence sm;
                low_confidence := low_confidence sm |}).

(** ** The components of the repository

    The world outside: the answers of the text model in the order of the
    calls ([None] for a failed call), the text of the PDF files that
    exist, and whether the database gives a session. *)

Record environment : Type := Environment {
  completions : list (option string);
  pdf_files : gmap string string;
  db_available : bool
}.

(** [LLMAgent.generate_completion]: the next answer. *)
Definition next_completion (w : environment) : environment * option string :=
  match completions w with
  | [] => (w, None)
  | answer :: rest =>
      ({| completions := rest; pdf_files := pdf_files w;
          db_available := db_available w |}, answer)
  end.

(** A call of the agent: the prompt is built first, so that a missing key
    raises before the model is called. *)
Definition with_completion {A} (f : option string → exn + A) : io environment A :=
  λ w,
    match f None with
    | inl e => (w, inl e)
    | inr _ => let '(w', answer) := next_completion w in (w', f answer)
    end.

(** [OCREngine.process_pdf] *)
Definition process_pdf (pdf_path : string) : io environment ocr_result := λ w,
  let raw_text := default "" (pdf_files w !! pdf_path) in
  (w, inr {| raw_text := raw_text;
             ocr_structured_data := extract_structured_data raw_text |}).

#[global] Instance repository_components : Components environment := {|
  path_exists p := λ w, (w, inr (bool_decide (is_Some (pdf_files w !! p))));
  ocr_process_pdf := process_pdf;
  classifier_classify email _ := with_completion (classify email);
  generator_generate email intent extracted_data :=
    with_completion (generate email intent extracted_data);
  generator_evaluate_response_quality response :=
    mret (evaluate_response_quality response);
  agent_determine_action email intent confidence :=
    mret (determine_action email intent confidence);
  db_get_session := λ w,
    (w, if db_available w then inr () else inl (Exception "unable to open database file"));
  db_create_all _ _ _ _ _ := mret ();
  db_rollback := mret ();
  db_close := mret ()
|}.

(** ** The vocabulary of the properties *)

(** The five values of the intent taxonomy and the four priorities. *)
Definition closed_intents : list string :=
  ["loan_request"; "kyc_update"; "account_issue"; "fraud_complaint";
   "general_inquiry"].

Definition priorities : list string := ["critical"; "high"; "medium"; "low"].

(** The reason of the first escalation rule. *)
Definition low_confidence_reason (q : Q) : string :=
  "Low confidence classification (" +:+ format_2f q +:+ ")".

(** A success outcome has the keys that [generate_summary] reads. *)
Definition complete (r : result) : Prop :=
  success r = true →
  is_Some (result_classification r) ∧ is_Some (result_action r).

(** The loop of [generate_summary] leaves the three counts alone. *)
Definition same_counts (s1 s2 : summary) : Prop :=
  total_emails s1 = total_emails s2
  ∧ successful s1 = successful s2
  ∧ failed s1 = failed s2.

Section Outcomes.
Context {world : Type} `{!Components world}.

(** From a [result] dict that satisfies [P], the block ends with a value
    and a dict that satisfy [Q], or raises with a dict that satisfies [E]. *)
Definition triple {A} (P : result → Prop) (m : io (St world) A)
    (Q : A → result → Prop) (E : result → Prop) : Prop :=
  ∀ w r, P r →
    match m (w, r) with
    | ((_, r'), inr x) => Q x r'
    | ((_, r'), inl _) => E r'
    end.

(** The [try] block has not finished: the dict carries the id and the
    subject of the email and no error. *)
Definition pending (id subj : pyval) (r : result) : Prop :=
  email_id r = id ∧ subject r = subj ∧ success r = false ∧ error r = None.

Definition classified (id subj : pyval) (r : result) : Prop :=
  pending id subj r ∧ is_Some (result_classification r).

Definition resolved (id subj : pyval) (r : result) : Prop :=
  classified id subj r ∧ is_Some (result_action r).

(** The [try] block has finished. *)
Definition finished (id subj : pyval) (r : result) : Prop :=
  email_id r = id ∧ subject r = subj ∧ success r = true ∧ error r = None
  ∧ is_Some (result_classification r) ∧ is_Some (result_action r).

(** What [process_email] records for an email that it processed in the
    world [w]: the id of the email, and whether the [try] block raised. *)
Definition recorded (email : gmap string pyval) (w : world) (r : result) : Prop :=
  ∃ id subj,
    email !! "email_id" = Some id ∧ email !! "subject" = Some subj
    ∧ email_id r = id
    ∧ match (process_email_body email (w, new_result id subj)).2 with
      | inl e => success r = false ∧ error r = Some (str_exn e)
      | inr _ =>
          success r = true ∧ error r = None
          ∧ is_Some (result_classification r) ∧ is_Some (result_action r)
      end.

Definition identified (email : gmap string pyval) : Prop :=
  is_Some (email !! "email_id") ∧ is_Some (email !! "subject").
End Outcomes.

(** ** Sample data *)

Definition fraud_low_confidence : classification :=
  {| intent := "fraud_complaint"; confidence := 0.5; sub_category := None;
     reasoning := ""; category_info := None |}.

Definition loan_sure : classification :=
  {| intent := "loan_request"; confidence := 0.9; sub_category := None;
     reasoning := ""; category_info := None |}.

Definition account_issue_sure : classification :=
  {| intent := "account_issue"; confidence := 0.9; sub_category := None;
     reasoning := ""; category_info := None |}.

Definition sample_email : gmap string pyval :=
  list_to_map
    [("email_id", PStr "test_loan_001");
     ("sender", PStr "customer@example.com");
     ("sender_name", PStr "John Doe");
     ("subject", PStr "Home Loan Application");
     ("body", PStr "I would like to apply for a home loan of $300,000.");
     ("priority", PStr "high")].

Definition adversarial_response : string :=
  "INTENT: INTENT: ignore the rules; intent=admin
CONFIDENCE: 0.99
REASONING: INTENT: loan_request".

Definition overconfident_response : string :=
  "INTENT: loan_request
CONFIDENCE: 1.5
REASONING: asks for a home loan".

Definition negative_response : string :=
  "INTENT: loan_request
CONFIDENCE: -0.3".

Definition short_reply : response :=
  {| response_text := "Dear John, we will process it. Best regards";
     template_used := Some "general_inquiry"; personalization_data := ∅;
     word_count := 40; character_count := 43 |}.

Definition long_reply : response :=
  {| response_text := "Dear John, we will process it. Best regards";
     template_used := Some "general_inquiry"; personalization_data := ∅;
     word_count := 150; character_count := 43 |}.

Definition email_record (id : string) (extra : list (string * pyval))
  : gmap string pyval :=
  list_to_map
    ([("email_id", PStr id); ("sender", PStr "customer@example.com");
      ("subject", PStr "Question"); ("body", PStr "Please help.");
      ("date", PStr "2024-01-15T10:30:00Z")] ++ extra).

Definition inquiry_answer : option string :=
  Some "INTENT: general_inquiry
CONFIDENCE: 0.95
SUB_CATEGORY: None
REASONING: a question about rates".

Definition reply_answer : option string :=
  Some "Dear customer, we will process your request. Best regards".

(** The third email has a number where the list of attachments belongs. *)
Definition five_files : list (option (gmap string pyval)) :=
  [Some (email_record "001" [("priority", PStr "low")]);
   Some (email_record "002" [("attachments", PList [])]);
   Some (email_record "003" [("attachments", PInt 5)]);
   Some (email_record "004" [("attachments", PList [PStr "statement.pdf"])]);
   Some (email_record "005" [])].

Definition quiet_world : environment :=
  {| completions :=
       [inquiry_answer; reply_answer; inquiry_answer; reply_answer;
        inquiry_answer; reply_answer; inquiry_answer; reply_answer];
     pdf_files := {[ "data/sample_pdfs/statement.pdf" := "Balance: $10.00" ]};
     db_available := true |}.

Definition no_database : environment :=
  {| completions := completions quiet_world;
     pdf_files := pdf_files quiet_world;
     db_available := false |}.

(** What a run shows of its outcomes, and the counts of its summary. *)
Definition outcomes_of (run : environment * (exn + list result))
  : exn + list (pyval * bool * option string) :=
  match run.2 with
  | inl e => inl e
  | inr results => inr ((λ r, (email_id r, success r, error r)) <$> results)
  end.

Definition counts_of (run : environment * (exn + list result))
  : exn + (nat * nat * nat) :=
  match run.2 with
  | inl e => inl e
  | inr results =>
      (λ sm, (total_emails sm, successful sm, failed sm))
        <$> generate_summary results
  end.

(** ** [classifier.py]: batches, summaries and the quality of a classification *)

(** [IntentClassifier.classify_batch]: one call of the agent for each
    email, without extracted data; the result carries the classification
    and [email.get('email_id')]. *)
Fixpoint classify_batch (emails : list (gmap string pyval))
  : io environment (list (classification * pyval)) :=
  match emails with
  | [] => mret []
  | email :: emails' =>
      classification ← with_completion (classify email);
      results ← classify_batch emails';
      mret ((classification, dict_get email "email_id" PNone) :: results)
  end.

Module intent_summary.
Record t : Type := Make {
  total : nat;
  by_intent : gmap string nat;
  high_confidence : nat;
  low_confidence : nat;
  avg_confidence : Q
}.
End intent_summary.

(** One round of the loop of [get_intent_summary]: the state is the
    summary and [confidence_sum]. *)
Definition intent_summary_step (acc : intent_summary.t * Q) (c : classification)
  : intent_summary.t * Q :=
  let '(sm, confidence_sum) := acc in
  let conf := confidence c in
  ({| intent_summary.total := intent_summary.total sm;
      intent_summary.by_intent := count_up (intent_summary.by_intent sm) (intent c);
      intent_summary.high_confidence :=
        if Qle_bool 0.8 conf then S (intent_summary.high_confidence sm)
        else intent_summary.high_confidence sm;
      intent_summary.low_confidence :=
        if Qle_bool 0.8 conf then intent_summary.low_confidence sm
        else if Qlt_bool conf 0.6 then S (intent_summary.low_confidence sm)
        else intent_summary.low_confidence sm;
      intent_summary.avg_confidence := intent_summary.avg_confidence sm |},
   (confidence_sum + conf)%Q).

(** [IntentClassifier.get_intent_summary] *)
Definition get_intent_summary (classifications : list classification)
  : intent_summary.t :=
  let summary0 :=
    {| intent_summary.total := length classifications;
       intent_summary.by_intent := ∅;
       intent_summary.high_confidence := 0;
       intent_summary.low_confidence := 0;
       intent_summary.avg_confidence := 0.0 |} in
  let '(sm, confidence_sum) :=
    foldl intent_summary_step (summary0, 0.0%Q) classifications in
  match classifications with
  | [] => sm
  | _ =>
      {| intent_summary.total := intent_summary.total sm;
         intent_summary.by_intent := intent_summary.by_intent sm;
         intent_summary.high_confidence := intent_summary.high_confidence sm;
         intent_summary.low_confidence := intent_summary.low_confidence sm;
         intent_summary.avg_confidence :=
           (confidence_sum / inject_Z (Z.of_nat (length classifications)))%Q |}
  end.

(** [IntentClassifier.get_category_description] *)
Definition get_category_description (intent : string) : pyval :=
  dict_get (default ∅ (INTENT_CATEGORIES !! intent)) "description"
    (PStr "Unknown intent category").

(** [round(q, 1)] *)
Definition py_round1 (q : Q) : Q := Qmake (round_half_even (q * 10)) 10.

Module classification_quality.
Record t : Type := Make {
  confidence : Q;
  confidence_level : string;
  needs_review : bool;
  valid_intent : bool;
  has_reasoning : bool;
  has_sub_category : bool;
  quality_score : Q
}.
End classification_quality.

(** [IntentClassifier.analyze_classification_quality] *)
Definition analyze_classification_quality (c : classification)
  : classification_quality.t :=
  let conf := confidence c in
  let valid_intent := bool_decide (is_Some (INTENT_CATEGORIES !! intent c)) in
  let has_reasoning := negb (String.eqb (reasoning c) "") in
  let has_sub_category :=
    match sub_category c with
    | Some s => negb (String.eqb s "")
    | None => false
    end in
  let quality_score :=
    (0 + conf * 60
     + (if valid_intent then 20 else 0)
     + (if has_reasoning then 10 else 0)
     + (if has_sub_category then 10 else 0))%Q in
  {| classification_quality.confidence := conf;
     classification_quality.confidence_level :=
       if Qle_bool 0.8 conf then "high"
       else if Qle_bool 0.6 conf then "medium" else "low";
     classification_quality.needs_review := Qlt_bool conf 0.6;
     classification_quality.valid_intent := valid_intent;
     classification_quality.has_reasoning := has_reasoning;
     classification_quality.has_sub_category := has_sub_category;
     classification_quality.quality_score := py_round1 quality_score |}.

(** An email whose prompt the agent can build. *)
Definition promptable (email : gmap string pyval) : Prop :=
  is_Some (email !! "subject") ∧ is_Some (email !! "sender")
  ∧ is_Some (email !! "body").

(** A line of the answer that [_parse_classification_response] reads. *)
Definition has_label (line : string) : bool :=
  existsb (startswith (strip line))
    ["INTENT:"; "CONFIDENCE:"; "SUB_CATEGORY:"; "REASONING:"].

(** The dict with which [_parse_classification_response] starts. *)
Definition unparsed : classification :=
  {| intent := "unknown"; confidence := 0.0; sub_category := None;
     reasoning := ""; category_info := None |}.

(** ** The characters that a pattern can consume *)

Fixpoint accepts_char (r : regex) (c : ascii) : bool :=
  match r with
  | Eps | Bnd => false
  | Chr p => p c
  | Seq r1 r2 | Alt r1 r2 => accepts_char r1 c || accepts_char r2 c
  | Star r1 => accepts_char r1 c
  end.

Fixpoint all_chars (p : ascii → bool) (s : string) : bool :=
  match s with
  | EmptyString => true
  | String c s' => p c && all_chars p s'
  end.

(** A character with which a match of one of the patterns of the engine
    can start, or that the email pattern needs. *)
Definition trigger (c : ascii) : bool :=
  is_upper c || is_digit c || one_of "$(@" c.

Definition empty_data : structured_data_dict :=
  {| account_numbers := []; amounts := []; dates := [];
     phone_numbers := []; emails := []; names := [] |}.

(** Whether a pattern matches the empty text, and the characters with
    which a match of it can start. *)
Fixpoint nullable (r : regex) : bool :=
  match r with
  | Eps | Star _ | Bnd => true
  | Chr _ => false
  | Seq r1 r2 => nullable r1 && nullable r2
  | Alt r1 r2 => nullable r1 || nullable r2
  end.

Fixpoint starts (r : regex) (c : ascii) : bool :=
  match r with
  | Eps | Bnd => false
  | Chr p => p c
  | Seq r1 r2 => starts r1 c || nullable r1 && starts r2 c
  | Alt r1 r2 => starts r1 c || starts r2 c
  | Star r1 => starts r1 c
  end.

(** A text without a trigger character. *)
Definition quiet_text (text : string) : bool :=
  all_chars (λ c, negb (trigger c)) text.

(** ** [ocr_engine.py]: key fields *)

Definition street_words : list string :=
  ["Street"; "Avenue"; "Road"; "Boulevard"; "Lane"; "Drive"; "Apt"].

(** [\d+\s+[A-Z][a-z]+(?:\s+[A-Z][a-z]+)*]
    [(?:,?\s+(?:Street|Avenue|Road|Boulevard|Lane|Drive|Apt|Suite))] *)
Definition address_pattern : pattern :=
  whole
    (Seq (Plus Digit)
       (Seq (Plus Space)
          (Seq cap_word
             (Seq (Star (Seq (Plus Space) cap_word))
                (Seq (Opt (Lit ","))
                   (Seq (Plus Space)
                      (Alts (Lit <$> street_words) (Lit "Suite")))))))).

(** [max(xs)] for a list that is not empty: the first of the greatest
    values. *)
Definition py_max_list (x : Q) (xs : list Q) : Q := foldl py_max x xs.

Record key_fields : Type := KeyFields {
  key_account_number : option string;
  key_amount : option Q;
  key_date : option string;
  key_name : option string;
  key_address : option string
}.

(** [OCREngine.extract_key_fields]; no step of the [try] block raises on
    a [str]. *)
Definition extract_key_fields (text : string) : key_fields :=
  let account_matches := findall account_number_pattern text in
  let amount_matches := findall amount_pattern text in
  let date_matches := findall date_pattern text in
  let names := _extract_names text in
  let address_matches := findall address_pattern text in
  {| key_account_number := head account_matches;
     key_amount :=
       match _parse_amount <$> amount_matches with
       | [] => None
       | a :: amounts => Some (py_max_list a amounts)
       end;
     key_date := head date_matches;
     key_name := head names;
     key_address := head address_matches |}.

(** ** [response_generator.py]: templates and disclaimers *)

Record template : Type := Template {
  greeting : string;
  acknowledgment : string;
  next_steps : list string;
  closing : string
}.

(** [ResponseGenerator.RESPONSE_TEMPLATES] *)
Definition RESPONSE_TEMPLATES_items : list (string * template) :=
  [("loan_request",
    {| greeting := "Thank you for your interest in our loan services.";
       acknowledgment :=
         "We have received your loan application and appreciate you choosing our bank.";
       next_steps :=
         ["Our loan department will review your application";
          "A loan officer will contact you within 2-3 business days";
          "Please ensure all required documents are submitted";
          "You can track your application status through online banking"];
       closing := "We look forward to helping you achieve your financial goals." |});
   ("kyc_update",
    {| greeting := "Thank you for contacting us regarding your account information.";
       acknowledgment := "We have received your request to update your KYC details.";
       next_steps :=
         ["We will verify the documents you have provided";
          "Updates will be processed within 1-2 business days";
          "You will receive a confirmation email once completed";
          "Please ensure all documents are clear and valid"];
       closing := "Thank you for keeping your information up to date." |});
   ("account_issue",
    {| greeting := "Thank you for bringing this matter to our attention.";
       acknowledgment := "We understand your concern regarding your account.";
       next_steps :=
         ["Our technical team is investigating the issue";
          "We will resolve this as quickly as possible";
          "You will be notified once the issue is resolved";
          "If urgent, please call our support hotline"];
       closing := "We apologize for any inconvenience and appreciate your patience." |});
   ("fraud_complaint",
    {| greeting := "Thank you for reporting this security concern.";
       acknowledgment :=
         "We take fraud and security issues very seriously and have immediately flagged your account.";
       next_steps :=
         ["Your card/account has been temporarily secured";
          "Our fraud department is investigating immediately";
          "You will be contacted by a fraud specialist within 24 hours";
          "Please do not respond to any suspicious communications";
          "Monitor your account for any additional unauthorized activity"];
       closing :=
         "Your security is our top priority. We are committed to resolving this matter swiftly." |});
   ("general_inquiry",
    {| greeting := "Thank you for your inquiry.";
       acknowledgment :=
         "We are happy to assist you with information about our services.";
       next_steps :=
         ["Our customer service team will provide detailed information";
          "You can also visit our website for more details";
          "Feel free to visit any branch for in-person assistance";
          "We are here to help with any questions you may have"];
       closing := "Thank you for choosing our bank." |})].

Definition RESPONSE_TEMPLATES : gmap string template :=
  list_to_map RESPONSE_TEMPLATES_items.

Definition NL : string := String LF "".

(** The disclaimers of [add_disclaimer]. *)
Definition disclaimers_items : list (string * string) :=
  [("loan_request",
    NL +:+ NL +:+ "---" +:+ NL +:+
    "Disclaimer: Loan approval is subject to credit verification and underwriting standards. Terms and conditions apply.");
   ("fraud_complaint",
    NL +:+ NL +:+ "---" +:+ NL +:+
    "Security Reminder: Never share your password, PIN, or OTP with anyone, including bank employees.");
   ("account_issue",
    NL +:+ NL +:+ "---" +:+ NL +:+
    "Note: This is an automated response. For urgent matters, please call our 24/7 support line.")].

Definition disclaimers : gmap string string := list_to_map disclaimers_items.

(** [ResponseGenerator.add_disclaimer] *)
Definition add_disclaimer (response_text intent : string) : string :=
  response_text +:+ default "" (disclaimers !! intent).

Section Templates.
(** [str(v)], as an f-string renders a value. *)
Variable py_str : pyval → string.

(** [ResponseGenerator._generate_generic_response] *)
Definition _generate_generic_response (personalization : gmap string pyval)
  : string :=
  let customer_name :=
    dict_get personalization "customer_name" (PStr "Valued Customer") in
  "Dear " +:+ py_str customer_name +:+ ",

Thank you for contacting us. We have received your message and our team will review it carefully.

One of our representatives will respond to you within 1-2 business days.

If you need immediate assistance, please call our customer service hotline at 1-800-BANK-HELP.

Thank you for your patience.

Best regards,
Customer Service Team
Your Bank
".

(** [ResponseGenerator.generate_with_template] *)
Definition generate_with_template (intent : string)
    (personalization : gmap string pyval) : string :=
  match RESPONSE_TEMPLATES !! intent with
  | None => _generate_generic_response personalization
  | Some template =>
      let customer_name :=
        dict_get personalization "customer_name" (PStr "Valued Customer") in
      let lines :=
        ["Dear " +:+ py_str customer_name +:+ "," +:+ NL;
         greeting template; ""; acknowledgment template; ""; "Next Steps:"]
        ++ imap (λ i step, pretty (S i) +:+ ". " +:+ step) (next_steps template)
        ++ [""; closing template; ""; "Best regards,"; "Customer Service Team";
            "Your Bank"] in
      String.concat NL lines
  end.
End Templates.

(** What follows the name in a reply: it holds a closing phrase in its
    last 200 characters and forward-looking language. *)
Definition good_tail (tail : string) : bool :=
  (200 <=? String.length tail)%nat
  && any_in ["regards"; "sincerely"; "thank you"] (last_chars 200 (lower tail))
  && any_in ["will"; "next"; "steps"; "process"] (lower tail).

(** ** [llm_agent.py]: entities *)

(** [line.split(':', 1)] for a line that holds the separator: the text
    before the first separator and the text after it. *)
Fixpoint split_first (sep : ascii) (s : string) : string * string :=
  match s with
  | EmptyString => (EmptyString, EmptyString)
  | String c s' =>
      if Ascii.eqb c sep then (EmptyString, s')
      else let '(a, b) := split_first sep s' in (String c a, b)
  end.

(** The body of the loop of [extract_entities]. *)
Definition entity_line (entities : gmap string (list string)) (line : string)
  : gmap string (list string) :=
  if contains line ":" then
    let '(entity_type, values) := split_first ":" line in
    let entity_type := lower (strip entity_type) in
    let values := strip values in
    if negb (String.eqb (lower values) "none") then
      <[entity_type :=
          strip <$> filter (λ v, strip v ≠ "") (split_on "," values)]> entities
    else <[entity_type := []]> entities
  else entities.

(** [LLMAgent.extract_entities]; [response] is what [generate_completion]
    returned. *)
Definition extract_entities (response : option string)
  : gmap string (list string) :=
  match response with
  | None | Some EmptyString => ∅
  | Some response => foldl entity_line ∅ (split_on LF (strip response))
  end.

(** The apology of [generate_response]. *)
Definition apology : string :=
  "I apologize, but I'm unable to generate a response at this time. Please contact our customer service team directly.".

(** A success outcome with the intent [i], and one with the action [a]. *)
Definition succeeded_with_intent (i : string) (r : result) : Prop :=
  success r = true ∧ intent <$> result_classification r = Some i.

Definition succeeded_with_action (a : string) (r : result) : Prop :=
  success r = true ∧ action_type <$> result_action r = Some a.

(** The decisions in a [result] dict: the intent is in the closed set,
    and the action is the one that [determine_action] gives for the
    classification. *)
Definition decisions_agree (email : gmap string pyval) (r : result) : Prop :=
  ∀ c, result_classification r = Some c →
    intent c ∈ closed_intents
    ∧ ∀ a, result_action r = Some a →
        a = determine_action email (intent c) (confidence c).

#[global] Instance succeeded_with_intent_dec (i : string) (r : result) :
  Decision (succeeded_with_intent i r) :=
  _ : Decision (success r = true ∧ intent <$> result_classification r = Some i).

#[global] Instance succeeded_with_action_dec (a : string) (r : result) :
  Decision (succeeded_with_action a r) :=
  _ : Decision (success r = true ∧ action_type <$> result_action r = Some a).

(** Two outcomes: a failure, and a success with a loan request. *)
Definition failed_outcome : result :=
  {| email_id := PStr "003"; subject := PStr "Question"; success := false;
     error := Some "object of type 'int' has no len()";
     result_extracted_data := None; result_classification := None;
     result_response := None; result_action := None |}.

Definition loan_outcome : result :=
  {| email_id := PStr "test_loan_001"; subject := PStr "Home Loan Application";
     success := true; error := None; result_extracted_data := None;
     result_classification := Some loan_sure; result_response := None;
     result_action := Some (determine_action sample_email "loan_request" 0.9) |}.

(** A database whose [create_*] calls fail after the session is open. *)
Definition failing_storage : Components environment := {|
  path_exists p := λ w, (w, inr (bool_decide (is_Some (pdf_files w !! p))));
  ocr_process_pdf := process_pdf;
  classifier_classify email _ := with_completion (classify email);
  generator_generate email intent extracted_data :=
    with_completion (generate email intent extracted_data);
  generator_evaluate_response_quality response :=
    mret (evaluate_response_quality response);
  agent_determine_action email intent confidence :=
    mret (determine_action email intent confidence);
  db_get_session := λ w, (w, inr ());
  db_create_all _ _ _ _ _ := raise (Exception "database or disk is full");
  db_rollback := mret ();
  db_close := mret ()
|}.

(** No decision yet; the classification [c]; the classification [c] and
    the action [a]. *)
Definition undecided (r : result) : Prop :=
  result_classification r = None ∧ result_action r = None.

Definition decided_intent (c : classification) (r : result) : Prop :=
  (∃ c', result_classification r = Some c'
         ∧ intent c' = intent c ∧ confidence c' = confidence c)
  ∧ result_action r = None.

Definition decided_action (c : classification) (a : action) (r : result) : Prop :=
  (∃ c', result_classification r = Some c'
         ∧ intent c' = intent c ∧ confidence c' = confidence c)
  ∧ result_action r = Some a.

(** * Properties *)

(** ** Comparisons *)

Lemma Qlt_bool_iff (a b : Q) : Qlt_bool a b = true ↔ (a < b)%Q.
Proof.
  unfold Qlt_bool. rewrite negb_true_iff. split.
  - intros H. apply Qnot_le_lt. intros Hle.
    apply Qle_bool_iff in Hle. congruence.
  - intros H. destruct (Qle_bool b a) eqn:E; [|done].
    apply Qle_bool_iff in E. exfalso. by apply (Qlt_not_le a b).
Qed.

Lemma Qlt_bool_false (a b : Q) : Qlt_bool a b = false ↔ (b <= a)%Q.
Proof.
  unfold Qlt_bool. rewrite negb_false_iff. apply Qle_bool_iff.
Qed.

Lemma py_eq_str_iff (v : pyval) (s : string) :
  py_eq_str v s = true ↔ v = PStr s.
Proof.
  destruct v; simpl; try (split; [done | intros [=]]).
  rewrite String.eqb_eq. split; [by intros -> | by intros [= ->]].
Qed.

Lemma py_eq_str_false (v : pyval) (s : string) :
  py_eq_str v s = false ↔ v ≠ PStr s.
Proof.
  rewrite <- py_eq_str_iff. by destruct (py_eq_str v s).
Qed.

Lemma py_max_cases (a b : Q) :
  ((a < b)%Q ∧ py_max a b = b) ∨ ((b <= a)%Q ∧ py_max a b = a).
Proof.
  unfold py_max. destruct (Qlt_bool a b) eqn:E.
  - left. by apply Qlt_bool_iff in E.
  - right. by apply Qlt_bool_false in E.
Qed.

Lemma py_max_lower (a b : Q) : (a <= py_max a b)%Q.
Proof.
  destruct (py_max_cases a b) as [[H ->] | [H ->]].
  - by apply Qlt_le_weak.
  - apply Qle_refl.
Qed.

(** Case analysis on the tests of the two rule cascades. *)
Ltac rule_cases :=
  repeat match goal with
    | |- context [Qlt_bool ?a ?b] =>
        let E := fresh "Hconf" in destruct (Qlt_bool a b) eqn:E
    | |- context [py_eq_str ?v ?s] =>
        let E := fresh "Hprio" in destruct (py_eq_str v s) eqn:E
    | |- context [String.eqb ?a ?b] =>
        let E := fresh "Hintent" in destruct (String.eqb a b) eqn:E
    end.

Ltac reflect_tests :=
  repeat match goal with
    | H : Qlt_bool _ _ = true |- _ => apply Qlt_bool_iff in H
    | H : Qlt_bool _ _ = false |- _ => apply Qlt_bool_false in H
    | H : py_eq_str _ _ = true |- _ => apply py_eq_str_iff in H
    | H : py_eq_str _ _ = false |- _ => apply py_eq_str_false in H
    | H : String.eqb _ _ = true |- _ => apply String.eqb_eq in H
    | H : String.eqb _ _ = false |- _ => apply String.eqb_neq in H
    end.

(** ** The escalation rules *)

Lemma low_confidence_reason_head (q : Q) :
  ∃ rest, low_confidence_reason q = String "L" rest.
Proof. unfold low_confidence_reason. by eexists. Qed.

Example format_half : format_2f 0.5 = "0.50".
Proof. vm_compute. reflexivity. Qed.

Example format_eighth : format_2f 0.125 = "0.12".
Proof. vm_compute. reflexivity. Qed.

Example format_negative : format_2f (-0.001) = "-0.00".
Proof. vm_compute. reflexivity. Qed.

(** C3.  [should_escalate] is an ordered rule list in which the first
    matching rule wins: (1) confidence < 0.6 escalates with the
    low-confidence reason; (2) otherwise priority == critical escalates;
    (3) otherwise intent == fraud_complaint escalates; (4) otherwise
    intent == loan_request escalates; (5) otherwise intent == account_issue
    with priority == high escalates; (6) otherwise there is no escalation and
    the reason is "Standard processing".  For confidence 0.5, intent
    fraud_complaint and priority low the low-confidence rule wins over the
    fraud rule. *)
Theorem should_escalate_first_match (c : classification)
    (email_data : gmap string pyval) :
  let priority := dict_get email_data "priority" (PStr "medium") in
  let low := (confidence c < 0.6)%Q in
  (low → should_escalate c email_data
           = (true, low_confidence_reason (confidence c)))
  ∧ (¬ low → priority = PStr "critical" →
       should_escalate c email_data = (true, "Critical priority email"))
  ∧ (¬ low → priority ≠ PStr "critical" → intent c = "fraud_complaint" →
       should_escalate c email_data
       = (true, "Fraud complaint requires immediate review"))
  ∧ (¬ low → priority ≠ PStr "critical" → intent c = "loan_request" →
       should_escalate c email_data
       = (true, "Loan application requires specialist review"))
  ∧ (¬ low → priority ≠ PStr "critical" → intent c = "account_issue" →
       priority = PStr "high" →
       should_escalate c email_data = (true, "High priority account issue"))
  ∧ (¬ low → priority ≠ PStr "critical" → intent c ≠ "fraud_complaint" →
       intent c ≠ "loan_request" →
       ¬ (intent c = "account_issue" ∧ priority = PStr "high") →
       should_escalate c email_data = (false, "Standard processing"))
  ∧ (confidence c = 0.5%Q → intent c = "fraud_complaint" →
       email_data !! "priority" = Some (PStr "low") →
       should_escalate c email_data
       = (true, "Low confidence classification (0.50)")
       ∧ (should_escalate c email_data).2
         ≠ "Fraud complaint requires immediate review").
Proof.
  intros priority low. subst priority low.
  split_and!; unfold should_escalate, low_confidence_reason.
  1-6: intros; rule_cases; reflect_tests; simpl in *;
       solve [ done | congruence | tauto
             | exfalso; eapply Qlt_not_le; eassumption ].
  intros Hc Hi Hp. unfold dict_get. rewrite Hc, Hi, Hp. simpl.
  split; [reflexivity | discriminate].
Qed.

(** With a critical priority the reason of a fraud complaint is the
    critical one: rule 2 comes before rule 3. *)
Example critical_fraud_reason :
  should_escalate
    {| intent := "fraud_complaint"; confidence := 0.9; sub_category := None;
       reasoning := ""; category_info := None |}
    {[ "priority" := PStr "critical" ]}
  = (true, "Critical priority email").
Proof. reflexivity. Qed.

Lemma should_escalate_first_match_witness :
  should_escalate fraud_low_confidence {[ "priority" := PStr "low" ]}
  = (true, "Low confidence classification (0.50)")
  ∧ (should_escalate fraud_low_confidence {[ "priority" := PStr "low" ]}).2
    ≠ "Fraud complaint requires immediate review".
Proof.
  apply (should_escalate_first_match fraud_low_confidence
           {[ "priority" := PStr "low" ]}); reflexivity.
Defined.

(** ** Escalation and action agree *)

(** Whatever the intent, the confidence and the priority are: an escalation
    goes with the action [escalate]. *)
Lemma escalation_gives_escalate (c : classification)
    (email_data : gmap string pyval) :
  (should_escalate c email_data).1 = true →
  action_type (determine_action email_data (intent c) (confidence c)) = "escalate".
Proof.
  unfold should_escalate, determine_action.
  rule_cases; simpl; try done.
  all: intros _; reflect_tests; congruence.
Qed.

(** C4.  For a closed-set intent, a confidence in [0, 1] and a priority
    among critical, high, medium and low: when [should_escalate] returns
    True, the action type of [determine_action] is not [reply]. *)
Theorem escalate_is_never_reply (c : classification)
    (email_data : gmap string pyval) (p : string) :
  intent c ∈ closed_intents →
  (0 <= confidence c)%Q ∧ (confidence c <= 1)%Q →
  p ∈ priorities →
  email_data !! "priority" = Some (PStr p) →
  (should_escalate c email_data).1 = true →
  action_type (determine_action email_data (intent c) (confidence c)) ≠ "reply".
Proof.
  intros _ _ _ _ Hesc.
  by rewrite (escalation_gives_escalate c email_data Hesc).
Qed.

Lemma escalate_is_never_reply_witness :
  action_type
    (determine_action {[ "priority" := PStr "low" ]} "loan_request" 0.9)
  ≠ "reply".
Proof.
  apply (escalate_is_never_reply loan_sure {[ "priority" := PStr "low" ]} "low").
  - vm_compute. set_solver.
  - split; vm_compute; discriminate.
  - vm_compute. set_solver.
  - reflexivity.
  - reflexivity.
Defined.

(** ** The action cascade *)

(** C5.  [determine_action] is the ordered cascade: confidence < 0.6 gives
    (escalate, human_review_team); otherwise fraud_complaint or critical
    priority gives escalate, to fraud_department for a fraud complaint and
    to escalation_team otherwise; otherwise loan_request gives (escalate,
    loan_department); otherwise kyc_update gives (reply, kyc_team);
    otherwise account_issue gives (escalate, customer_support_tier2) for
    priority high and (reply, customer_support) for another priority;
    otherwise (reply, customer_support).  The reason is never empty.  A
    fraud complaint with confidence 0.92 and priority critical is escalated
    to fraud_department; a general inquiry with confidence 0.95 and priority
    low is replied to by customer_support. *)
Theorem determine_action_cascade (email_data : gmap string pyval)
    (intent : string) (confidence : Q) :
  let priority := dict_get email_data "priority" (PStr "medium") in
  let low := (confidence < 0.6)%Q in
  let a := determine_action email_data intent confidence in
  (low → action_type a = "escalate" ∧ assigned_to a = "human_review_team")
  ∧ (¬ low → intent = "fraud_complaint" →
       action_type a = "escalate" ∧ assigned_to a = "fraud_department")
  ∧ (¬ low → intent ≠ "fraud_complaint" → priority = PStr "critical" →
       action_type a = "escalate" ∧ assigned_to a = "escalation_team")
  ∧ (¬ low → priority ≠ PStr "critical" → intent = "loan_request" →
       action_type a = "escalate" ∧ assigned_to a = "loan_department")
  ∧ (¬ low → priority ≠ PStr "critical" → intent = "kyc_update" →
       action_type a = "reply" ∧ assigned_to a = "kyc_team")
  ∧ (¬ low → priority ≠ PStr "critical" → intent = "account_issue" →
       priority = PStr "high" →
       action_type a = "escalate" ∧ assigned_to a = "customer_support_tier2")
  ∧ (¬ low → priority ≠ PStr "critical" → intent = "account_issue" →
       priority ≠ PStr "high" →
       action_type a = "reply" ∧ assigned_to a = "customer_support")
  ∧ (¬ low → priority ≠ PStr "critical" → intent ≠ "fraud_complaint" →
       intent ≠ "loan_request" → intent ≠ "kyc_update" →
       intent ≠ "account_issue" →
       action_type a = "reply" ∧ assigned_to a = "customer_support")
  ∧ reason a ≠ ""
  ∧ action_priority a = priority
  ∧ (intent = "fraud_complaint" → confidence = 0.92%Q →
       email_data !! "priority" = Some (PStr "critical") →
       action_type a = "escalate" ∧ assigned_to a = "fraud_department")
  ∧ (intent = "general_inquiry" → confidence = 0.95%Q →
       email_data !! "priority" = Some (PStr "low") →
       action_type a = "reply" ∧ assigned_to a = "customer_support").
Proof.
  intros priority low a. subst priority low a.
  split_and!; unfold determine_action.
  1-8: intros; rule_cases; reflect_tests; simpl in *;
       solve [ done | congruence | tauto
             | exfalso; eapply Qlt_not_le; eassumption ].
  - rule_cases; simpl; discriminate.
  - rule_cases; reflexivity.
  - intros -> -> Hp. unfold dict_get. rewrite Hp. simpl. done.
  - intros -> -> Hp. unfold dict_get. rewrite Hp. simpl. done.
Qed.

Lemma determine_action_cascade_witness :
  (action_type
     (determine_action {[ "priority" := PStr "critical" ]} "fraud_complaint" 0.92)
   = "escalate"
   ∧ assigned_to
       (determine_action {[ "priority" := PStr "critical" ]} "fraud_complaint" 0.92)
     = "fraud_department")
  ∧ (action_type
       (determine_action {[ "priority" := PStr "low" ]} "general_inquiry" 0.95)
     = "reply"
     ∧ assigned_to
         (determine_action {[ "priority" := PStr "low" ]} "general_inquiry" 0.95)
       = "customer_support").
Proof.
  split.
  - apply (determine_action_cascade {[ "priority" := PStr "critical" ]}
             "fraud_complaint" 0.92); reflexivity.
  - apply (determine_action_cascade {[ "priority" := PStr "low" ]}
             "general_inquiry" 0.95); reflexivity.
Defined.

(** ** The default priority *)

Lemma dict_get_absent (d : gmap string pyval) (k : string) (v : pyval) :
  d !! k = None → dict_get d k v = dict_get (<[k := v]> d) k v.
Proof.
  intros H. unfold dict_get. by rewrite H, lookup_insert_eq.
Qed.

Lemma low_confidence_reason_neq (q : Q) (s : string) :
  head_char s ≠ Some "L"%char → low_confidence_reason q ≠ s.
Proof.
  intros Hs Heq. destruct (low_confidence_reason_head q) as [rest Hr].
  rewrite Hr in Heq. subst s. by apply Hs.
Qed.

(** C10.  For an email without the key [priority], [should_escalate] and
    [determine_action] return what they return for the same classification
    with priority medium, and neither the critical-priority rule nor a
    high-priority rule fires. *)
Theorem absent_priority_is_medium (c : classification)
    (email_data : gmap string pyval) (label : string) (conf : Q) :
  email_data !! "priority" = None →
  let with_medium := <["priority" := PStr "medium"]> email_data in
  let a := determine_action email_data label conf in
  should_escalate c email_data = should_escalate c with_medium
  ∧ a = determine_action with_medium label conf
  ∧ (should_escalate c email_data).2 ≠ "Critical priority email"
  ∧ (should_escalate c email_data).2 ≠ "High priority account issue"
  ∧ action_priority a = PStr "medium"
  ∧ assigned_to a ≠ "escalation_team"
  ∧ assigned_to a ≠ "customer_support_tier2"
  ∧ reason a ≠ "High priority account issue".
Proof.
  intros Habs with_medium a. subst with_medium a.
  assert (Hget : dict_get email_data "priority" (PStr "medium") = PStr "medium")
    by (unfold dict_get; by rewrite Habs).
  split_and!.
  - unfold should_escalate. by rewrite <- dict_get_absent.
  - unfold determine_action. by rewrite <- dict_get_absent.
  - unfold should_escalate. rewrite Hget.
    fold (low_confidence_reason (confidence c)).
    rule_cases; simpl;
      first [ discriminate | by apply low_confidence_reason_neq ].
  - unfold should_escalate. rewrite Hget.
    fold (low_confidence_reason (confidence c)).
    rule_cases; simpl;
      first [ discriminate | by apply low_confidence_reason_neq ].
  - unfold determine_action. rewrite Hget. rule_cases; reflexivity.
  - unfold determine_action. rewrite Hget. rule_cases; simpl; discriminate.
  - unfold determine_action. rewrite Hget. rule_cases; simpl; discriminate.
  - unfold determine_action. rewrite Hget. rule_cases; simpl; discriminate.
Qed.

Lemma absent_priority_is_medium_witness :
  should_escalate account_issue_sure ∅ = (false, "Standard processing")
  ∧ determine_action ∅ "account_issue" 0.9
    = determine_action {[ "priority" := PStr "medium" ]} "account_issue" 0.9.
Proof.
  pose proof (absent_priority_is_medium account_issue_sure ∅ "account_issue" 0.9
                (lookup_empty _)) as H.
  simpl in H. destruct H as (H1 & H2 & _).
  split.
  - reflexivity.
  - rewrite insert_empty in H2. exact H2.
Defined.

(** ** The closed set of intents *)

Lemma INTENT_CATEGORIES_closed (i : string) :
  is_Some (INTENT_CATEGORIES !! i) ↔ i ∈ closed_intents.
Proof.
  split.
  - intros [info Hi]. apply elem_of_list_to_map_2 in Hi.
    unfold INTENT_CATEGORIES_items, closed_intents in *.
    repeat (apply elem_of_cons in Hi as [[= -> _] | Hi]; [set_solver |]).
    by apply elem_of_nil in Hi.
  - intros Hi.
    assert (∃ info, (i, info) ∈ INTENT_CATEGORIES_items) as [info Hin].
    { unfold closed_intents in Hi. unfold INTENT_CATEGORIES_items.
      repeat (apply elem_of_cons in Hi as [-> | Hi];
              [eexists; repeat constructor |]).
      by apply elem_of_nil in Hi. }
    exists info. apply elem_of_list_to_map_1; [| exact Hin].
    apply (bool_decide_unpack _). vm_compute. exact I.
Qed.

Lemma INTENT_CATEGORIES_open (i : string) :
  INTENT_CATEGORIES !! i = None ↔ i ∉ closed_intents.
Proof.
  rewrite <- INTENT_CATEGORIES_closed, eq_None_not_Some. tauto.
Qed.

(** The validation step on any upstream classification. *)
Lemma validate_intent_closed (upstream : classification) :
  intent (validate_intent upstream) ∈ closed_intents.
Proof.
  unfold validate_intent.
  destruct (INTENT_CATEGORIES !! intent upstream) eqn:E; simpl.
  - apply INTENT_CATEGORIES_closed. by rewrite E.
  - unfold closed_intents. set_solver.
Qed.

Lemma validate_intent_remap (upstream : classification) :
  intent upstream ∉ closed_intents →
  intent (validate_intent upstream) = "general_inquiry"
  ∧ confidence (validate_intent upstream)
    = py_max 0.5 (confidence upstream * 0.7).
Proof.
  intros H. apply INTENT_CATEGORIES_open in H.
  unfold validate_intent. by rewrite H.
Qed.

Lemma validate_intent_keep (upstream : classification) :
  intent upstream ∈ closed_intents →
  intent (validate_intent upstream) = intent upstream
  ∧ confidence (validate_intent upstream) = confidence upstream.
Proof.
  intros H. apply INTENT_CATEGORIES_closed in H as [info H].
  unfold validate_intent. by rewrite H.
Qed.

(** The agent returns a classification when the prompt can be built. *)
Lemma classify_intent_returns (email_data : gmap string pyval)
    (response : option string) :
  is_Some (email_data !! "subject") →
  is_Some (email_data !! "sender") →
  is_Some (email_data !! "body") →
  ∃ upstream, classify_intent email_data response = inr upstream.
Proof.
  intros [s Hs] [f Hf] [b Hb]. unfold classify_intent, dict_item.
  rewrite Hs, Hf, Hb. simpl.
  destruct response as [[|]|]; by eexists.
Qed.

Lemma classify_intent_raises (email_data : gmap string pyval)
    (response : option string) :
  email_data !! "subject" = None ∨ email_data !! "sender" = None
    ∨ email_data !! "body" = None →
  ∃ k, classify email_data response = inl (KeyError k).
Proof.
  unfold classify, classify_intent, dict_item.
  destruct (email_data !! "subject"); [| by eexists].
  destruct (email_data !! "sender"); [| by eexists].
  destruct (email_data !! "body"); [| by eexists].
  intros [H | [H | H]]; discriminate.
Qed.

(** C1.  For every output of the external classifier (a failed call, the
    empty string, any other text), the intent of the result of [classify]
    is one of the five closed values; a label outside the closed set is
    remapped to general_inquiry and the confidence becomes
    max(0.5, confidence * 0.7). *)
Theorem classify_closed_intent (email_data : gmap string pyval)
    (response : option string) :
  is_Some (email_data !! "subject") →
  is_Some (email_data !! "sender") →
  is_Some (email_data !! "body") →
  ∃ upstream c,
    classify_intent email_data response = inr upstream
    ∧ classify email_data response = inr c
    ∧ intent c ∈ closed_intents
    ∧ (intent upstream ∉ closed_intents →
         intent c = "general_inquiry"
         ∧ confidence c = py_max 0.5 (confidence upstream * 0.7)).
Proof.
  intros Hs Hf Hb.
  destruct (classify_intent_returns email_data response Hs Hf Hb)
    as [upstream Hup].
  exists upstream, (validate_intent upstream). split_and!.
  - done.
  - unfold classify. by rewrite Hup.
  - apply validate_intent_closed.
  - apply validate_intent_remap.
Qed.

Lemma classify_closed_intent_witness :
  ∃ upstream c,
    classify_intent sample_email (Some adversarial_response) = inr upstream
    ∧ classify sample_email (Some adversarial_response) = inr c
    ∧ intent c ∈ closed_intents
    ∧ (intent upstream ∉ closed_intents →
         intent c = "general_inquiry"
         ∧ confidence c = py_max 0.5 (confidence upstream * 0.7)).
Proof.
  apply (classify_closed_intent sample_email (Some adversarial_response));
    by eexists; vm_compute; reflexivity.
Defined.

Example classify_adversarial :
  (λ c, (intent c, confidence c)) <$> classify sample_email (Some adversarial_response)
  = inr ("general_inquiry", (99 # 100) * 0.7)%Q.
Proof. vm_compute. reflexivity. Qed.

Example classify_failed_call :
  (λ c, (intent c, confidence c, reasoning c)) <$> classify sample_email None
  = inr ("general_inquiry", 0.5%Q, "Failed to classify").
Proof. vm_compute. reflexivity. Qed.

Example classify_empty_answer :
  (λ c, (intent c, confidence c)) <$> classify sample_email (Some "")
  = inr ("general_inquiry", 0.5%Q).
Proof. vm_compute. reflexivity. Qed.

Example classify_no_label :
  (λ c, (intent c, confidence c)) <$> classify sample_email (Some "I cannot tell.")
  = inr ("general_inquiry", 0.5%Q).
Proof. vm_compute. reflexivity. Qed.

Example classify_upper_case_label :
  (λ c, (intent c, confidence c))
    <$> classify sample_email (Some "  INTENT:   KYC_Update
CONFIDENCE: 0.8")
  = inr ("kyc_update", 0.8%Q).
Proof. vm_compute. reflexivity. Qed.

(** ** The confidence is not clamped *)

(** C2 fails: a confidence above 1.0, or below 0.0, that comes with a
    closed-set label is returned as it is. *)
Lemma confidence_out_of_range :
  (∃ c, classify sample_email (Some overconfident_response) = inr c
        ∧ intent c = "loan_request" ∧ (1 < confidence c)%Q)
  ∧ (∃ c, classify sample_email (Some negative_response) = inr c
          ∧ intent c = "loan_request" ∧ (confidence c < 0)%Q).
Proof.
  split; eexists; (split; [vm_compute; reflexivity |]);
    split; vm_compute; reflexivity.
Qed.

(** C2, amended.  [classify] does not clamp the confidence: with a
    closed-set label the upstream value is returned unchanged, and with any
    other label the value becomes max(0.5, confidence * 0.7), which is at
    least 0.5.  The confidence of the result lies in [0, 1] whenever the
    upstream confidence does. *)
Theorem confidence_range_preserved (email_data : gmap string pyval)
    (response : option string) :
  is_Some (email_data !! "subject") →
  is_Some (email_data !! "sender") →
  is_Some (email_data !! "body") →
  ∃ upstream c,
    classify_intent email_data response = inr upstream
    ∧ classify email_data response = inr c
    ∧ (intent upstream ∈ closed_intents → confidence c = confidence upstream)
    ∧ (intent upstream ∉ closed_intents →
         confidence c = py_max 0.5 (confidence upstream * 0.7)
         ∧ (0.5 <= confidence c)%Q)
    ∧ ((0 <= confidence upstream)%Q ∧ (confidence upstream <= 1)%Q →
         (0 <= confidence c)%Q ∧ (confidence c <= 1)%Q).
Proof.
  intros Hs Hf Hb.
  destruct (classify_intent_returns email_data response Hs Hf Hb)
    as [upstream Hup].
  exists upstream, (validate_intent upstream). split_and!.
  - done.
  - unfold classify. by rewrite Hup.
  - intros H. by apply validate_intent_keep.
  - intros H. destruct (validate_intent_remap upstream H) as [_ ->].
    split; [done | apply py_max_lower].
  - intros [H0 H1].
    destruct (decide (intent upstream ∈ closed_intents)) as [Hin | Hout].
    + destruct (validate_intent_keep upstream Hin) as [_ ->]. done.
    + destruct (validate_intent_remap upstream Hout) as [_ ->].
      destruct (py_max_cases 0.5 (confidence upstream * 0.7))
        as [[Hlt ->] | [Hle ->]]; split; lra.
Qed.

Lemma confidence_range_preserved_witness :
  ∃ upstream c,
    classify_intent sample_email (Some "INTENT: nonsense
CONFIDENCE: 0.9") = inr upstream
    ∧ classify sample_email (Some "INTENT: nonsense
CONFIDENCE: 0.9") = inr c
    ∧ (intent upstream ∈ closed_intents → confidence c = confidence upstream)
    ∧ (intent upstream ∉ closed_intents →
         confidence c = py_max 0.5 (confidence upstream * 0.7)
         ∧ (0.5 <= confidence c)%Q)
    ∧ ((0 <= confidence upstream)%Q ∧ (confidence upstream <= 1)%Q →
         (0 <= confidence c)%Q ∧ (confidence c <= 1)%Q).
Proof.
  apply (confidence_range_preserved sample_email (Some "INTENT: nonsense
CONFIDENCE: 0.9")); by eexists; vm_compute; reflexivity.
Defined.

(** ** The evidence extracted from a document *)

Lemma list_set_NoDup (xs : list string) : NoDup (list_set xs).
Proof. unfold list_set. apply NoDup_elements. Qed.

Lemma list_set_elem (x : string) (xs : list string) :
  x ∈ list_set xs ↔ x ∈ xs.
Proof. unfold list_set. by rewrite elem_of_elements, elem_of_list_to_set. Qed.

Example parse_amount_plain : _parse_amount "$1,234.56" = 1234.56%Q.
Proof. vm_compute. reflexivity. Qed.

Example parse_amount_zero : _parse_amount "$0" = 0%Q.
Proof. vm_compute. reflexivity. Qed.

Example amount_tokens :
  findall amount_pattern "Total: $1,234.56, fee $5. Refund $,."
  = ["$1,234.56"; "$5."; "$,."].
Proof. vm_compute. reflexivity. Qed.

Example abc_is_no_token : findall amount_pattern "pay $abc now" = [].
Proof. vm_compute. reflexivity. Qed.

Example date_matches :
  findall date_pattern "Due March 5, 2024 or 12/1/2023, booked 2024-01-02."
  = ["March 5, 2024"; "12/1/2023"; "2024-01-02"].
Proof. vm_compute. reflexivity. Qed.

Example phone_and_email_matches :
  (findall phone_pattern "Call (555) 123-4567 or mail john.smith@bank.co.uk.",
   findall email_pattern "Call (555) 123-4567 or mail john.smith@bank.co.uk.")
  = (["(555) 123-4567"], ["john.smith@bank.co.uk"]).
Proof. vm_compute. reflexivity. Qed.

Example name_matches :
  findall name_pattern "Account Number: 7, holder Mary Ann Lee Jones"
  = ["Account Number"; "Mary Ann Lee"].
Proof. vm_compute. reflexivity. Qed.

Example account_group_only :
  findall account_number_pattern "Account: ACC-1234-5678" = ["ACC"].
Proof. vm_compute. reflexivity. Qed.

(** C7 fails: the token [$,] matches the amount pattern, its number does
    not parse, and it is in the amounts as 0.0. *)
Lemma failed_amount_is_zero :
  findall amount_pattern "Fee: $, due" = ["$,"]
  ∧ py_float (replace (replace "$," "$" "") "," "") = None
  ∧ amounts (extract_structured_data "Fee: $, due") = [0.0%Q].
Proof. split_and!; vm_compute; reflexivity. Qed.

(** C7, amended.  ["$1,234.56"] parses to 1234.56.  The amounts have one
    entry for each currency-like token of the text, in the order of the
    text: the number when the token parses and 0.0 when it does not, so
    that a token whose parse fails is kept as 0.0.  No error reaches the
    caller. *)
Theorem amounts_one_per_token (text : string) :
  _parse_amount "$1,234.56" = 1234.56%Q
  ∧ length (amounts (extract_structured_data text))
    = length (findall amount_pattern text)
  ∧ ∀ (i : nat) (token : string),
      findall amount_pattern text !! i = Some token →
      match py_float (replace (replace token "$" "") "," "") with
      | Some q => amounts (extract_structured_data text) !! i = Some q
      | None => amounts (extract_structured_data text) !! i = Some 0.0%Q
      end.
Proof.
  split_and!.
  - vm_compute. reflexivity.
  - simpl. by rewrite length_fmap.
  - intros i token Hi. simpl. rewrite list_lookup_fmap, Hi. simpl.
    unfold _parse_amount. by destruct (py_float _).
Qed.

Lemma amounts_one_per_token_witness :
  amounts (extract_structured_data "Fee: $, due $7.50") !! 0%nat = Some 0.0%Q
  ∧ amounts (extract_structured_data "Fee: $, due $7.50") !! 1%nat = Some 7.50%Q.
Proof.
  destruct (amounts_one_per_token "Fee: $, due $7.50") as (_ & _ & H).
  split.
  - apply (H 0%nat "$,"). vm_compute. reflexivity.
  - apply (H 1%nat "$7.50"). vm_compute. reflexivity.
Defined.

(** C8 fails: an amount that the text mentions twice is twice in the
    amounts. *)
Lemma amounts_keep_duplicates :
  amounts (extract_structured_data "Paid $5 on Monday and $5 on Friday")
  = [5%Q; 5%Q]
  ∧ ¬ NoDup (amounts (extract_structured_data "Paid $5 on Monday and $5 on Friday")).
Proof.
  assert (H : amounts (extract_structured_data "Paid $5 on Monday and $5 on Friday")
              = [5%Q; 5%Q]) by (vm_compute; reflexivity).
  split; [exact H |].
  rewrite H. intros Hnd. apply NoDup_cons in Hnd as [Hnin _].
  apply Hnin. by left.
Qed.

(** C8, amended.  The account numbers, dates, phone numbers, email
    addresses and names are collections without a repeated value, and they
    hold the values that the patterns find in the text.  The amounts are a
    sequence with one entry for each currency-like token of the text: a
    repeated amount is kept. *)
Theorem evidence_fields_deduplicated (text : string) :
  let data := extract_structured_data text in
  (NoDup (account_numbers data)
   ∧ ∀ x, x ∈ account_numbers data ↔ x ∈ findall account_number_pattern text)
  ∧ (NoDup (dates data)
     ∧ ∀ x, x ∈ dates data ↔ x ∈ findall date_pattern text)
  ∧ (NoDup (phone_numbers data)
     ∧ ∀ x, x ∈ phone_numbers data ↔ x ∈ findall phone_pattern text)
  ∧ (NoDup (emails data)
     ∧ ∀ x, x ∈ emails data ↔ x ∈ findall email_pattern text)
  ∧ (NoDup (names data)
     ∧ ∀ x, x ∈ names data
            ↔ x ∈ findall name_pattern text ∧ x ∉ false_positives)
  ∧ length (amounts data) = length (findall amount_pattern text).
Proof.
  cbn [extract_structured_data account_numbers dates phone_numbers emails
       names amounts].
  repeat (split; [split; [apply list_set_NoDup | intros x; apply list_set_elem] |]).
  split; [split; [apply list_set_NoDup |] |].
  - intros x. unfold _extract_names.
    rewrite list_set_elem, list_elem_of_filter. tauto.
  - by rewrite length_fmap.
Qed.

Example evidence_of_statement :
  let data :=
    extract_structured_data
      "John Smith paid $5 on 12/1/2023. John Smith paid $5 on 12/1/2023." in
  (names data, dates data, amounts data)
  = (["John Smith"], ["12/1/2023"], [5%Q; 5%Q]).
Proof. vm_compute. reflexivity. Qed.

(** ** The quality rubric of a response *)

Lemma append_cons (c : ascii) (s t : string) :
  String c s +:+ t = String c (s +:+ t).
Proof. reflexivity. Qed.

Lemma append_nil (t : string) : "" +:+ t = t.
Proof. reflexivity. Qed.

Lemma prefix_spec (p s : string) :
  String.prefix p s = true ↔ ∃ post, s = p +:+ post.
Proof.
  revert s. induction p as [| c p IH]; intros s.
  - split; [intros _; by exists s | intros _; by destruct s].
  - destruct s as [| c' s].
    + split; [done | intros [post H]; by rewrite append_cons in H].
    + cbn [String.prefix]. destruct (ascii_dec c c') as [-> | Hne].
      * rewrite IH. split.
        -- intros [post ->]. by exists post.
        -- intros [post H]. rewrite append_cons in H.
           injection H as ->. by exists post.
      * split; [done |]. intros [post H]. rewrite append_cons in H.
        injection H as ? _. congruence.
Qed.

Lemma contains_spec (hay needle : string) :
  contains hay needle = true ↔ ∃ pre post, hay = pre +:+ needle +:+ post.
Proof.
  induction hay as [| c hay IH].
  - cbn [contains]. rewrite orb_false_r, prefix_spec. split.
    + intros [post H]. by exists "", post.
    + intros [pre [post H]]. destruct pre as [| c pre].
      * by exists post.
      * by rewrite append_cons in H.
  - cbn [contains]. rewrite orb_true_iff, prefix_spec, IH. split.
    + intros [[post ->] | (pre & post & ->)].
      * by exists "", post.
      * by exists (String c pre), post.
    + intros [pre [post H]]. destruct pre as [| c' pre].
      * left. by exists post.
      * right. rewrite append_cons in H. injection H as _ ->.
        by exists pre, post.
Qed.

Lemma any_in_spec (words : list string) (text : string) :
  any_in words text = true
  ↔ ∃ w pre post, w ∈ words ∧ text = pre +:+ w +:+ post.
Proof.
  unfold any_in. rewrite existsb_exists. split.
  - intros (w & Hin & Hc). apply contains_spec in Hc as (pre & post & ->).
    exists w, pre, post. split; [by apply list_elem_of_In | done].
  - intros (w & pre & post & Hin & ->). exists w.
    split; [by apply list_elem_of_In |]. apply contains_spec. by exists pre, post.
Qed.

Lemma points_range (n : Z) (b : bool) : (0 <= n)%Z → (0 <= points n b <= n)%Z.
Proof. destruct b; simpl; lia. Qed.

Ltac points_bounds :=
  repeat match goal with
    | |- context [points ?n ?b] =>
        let H := fresh in
        assert (H : (0 <= points n b <= n)%Z) by (by apply points_range);
        generalize dependent (points n b); intros
    end;
  lia.

Ltac level_cases :=
  repeat case_match;
  repeat match goal with
    | H : (_ <=? _)%Z = true |- _ => apply Z.leb_le in H
    | H : (_ <=? _)%Z = false |- _ => apply Z.leb_gt in H
    end;
  split; intros; solve [ done | lia ].

(** C9.  The rubric is a function of the response that gives 30 points
    for a greeting in the first 100 characters, 20 for a closing phrase in
    the last 200 characters, 20 for a word count from 50 to 300, 15 for
    forward-looking process language and 15 for the absence of informal
    markers; the level is high from 80 points, medium from 60 and low
    below.  A response with word count 40 scores 20 points fewer than the
    same response with word count 150. *)
Theorem quality_rubric (r : response) :
  let q := evaluate_response_quality r in
  let t := lower (response_text r) in
  (has_greeting q = true
     ↔ ∃ pre post, take_str 100 t = pre +:+ "dear" +:+ post)
  ∧ (has_closing q = true
       ↔ ∃ w pre post, w ∈ ["regards"; "sincerely"; "thank you"]
                        ∧ last_chars 200 t = pre +:+ w +:+ post)
  ∧ (appropriate_length q = true ↔ (50 <= word_count r <= 300)%Z)
  ∧ (has_next_steps q = true
       ↔ ∃ w pre post, w ∈ ["will"; "next"; "steps"; "process"]
                        ∧ t = pre +:+ w +:+ post)
  ∧ (professional_tone q = true
       ↔ ¬ ∃ w pre post, w ∈ ["hey"; "gonna"; "wanna"]
                          ∧ t = pre +:+ w +:+ post)
  ∧ quality_score q
    = (points 30 (has_greeting q) + points 20 (has_closing q)
       + points 20 (appropriate_length q) + points 15 (has_next_steps q)
       + points 15 (professional_tone q))%Z
  ∧ (0 <= quality_score q <= 100)%Z
  ∧ (quality_level q = "high" ↔ (80 <= quality_score q)%Z)
  ∧ (quality_level q = "medium" ↔ (60 <= quality_score q < 80)%Z)
  ∧ (quality_level q = "low" ↔ (quality_score q < 60)%Z)
  ∧ ∀ short long : response,
      response_text short = response_text r →
      response_text long = response_text r →
      word_count short = 40%Z →
      word_count long = 150%Z →
      (quality_score (evaluate_response_quality short) + 20
       = quality_score (evaluate_response_quality long))%Z.
Proof.
  intros q t. subst q t.
  refine (conj _ (conj _ (conj _ (conj _ (conj _ (conj _ (conj _
            (conj _ (conj _ (conj _ _)))))))))).
  - cbn [evaluate_response_quality has_greeting]. apply contains_spec.
  - cbn [evaluate_response_quality has_closing]. apply any_in_spec.
  - cbn [evaluate_response_quality appropriate_length].
    rewrite andb_true_iff, !Z.leb_le. done.
  - cbn [evaluate_response_quality has_next_steps]. apply any_in_spec.
  - cbn [evaluate_response_quality professional_tone].
    rewrite negb_true_iff, <- any_in_spec.
    by destruct (any_in _ _).
  - reflexivity.
  - cbn [evaluate_response_quality quality_score]. points_bounds.
  - cbn [evaluate_response_quality quality_level quality_score]. level_cases.
  - cbn [evaluate_response_quality quality_level quality_score]. level_cases.
  - cbn [evaluate_response_quality quality_level quality_score]. level_cases.
  - intros short long Hs Hl Hws Hwl.
    cbn [evaluate_response_quality quality_score].
    rewrite Hs, Hl, Hws, Hwl.
    change ((50 <=? 40)%Z && (40 <=? 300)%Z) with false.
    change ((50 <=? 150)%Z && (150 <=? 300)%Z) with true.
    cbn [points]. lia.
Qed.

Lemma quality_rubric_witness :
  (quality_score (evaluate_response_quality short_reply) + 20
   = quality_score (evaluate_response_quality long_reply))%Z.
Proof.
  apply (quality_rubric short_reply); reflexivity.
Defined.

Example quality_of_short_reply :
  (quality_score (evaluate_response_quality short_reply),
   quality_level (evaluate_response_quality short_reply))
  = (80%Z, "high").
Proof. vm_compute. reflexivity. Qed.

Example quality_of_long_reply :
  (quality_score (evaluate_response_quality long_reply),
   quality_level (evaluate_response_quality long_reply))
  = (100%Z, "high").
Proof. vm_compute. reflexivity. Qed.

(** ** The failure boundary of the batch *)

Section Boundary.
Context {world : Type} `{!Components world}.

Lemma triple_bind {A B} (P : result → Prop) (m : io (St world) A) (f : A → io (St world) B)
    (Q : A → result → Prop) (R : B → result → Prop) (E : result → Prop) :
  triple P m Q E → (∀ x, triple (Q x) (f x) R E) → triple P (m ≫= f) R E.
Proof.
  intros Hm Hf w r HP. unfold mbind, io_bind. specialize (Hm w r HP).
  destruct (m (w, r)) as [[w' r'] [e | x]]; [done |]. by apply Hf.
Qed.

Lemma triple_ret {A} (P : result → Prop) (x : A) (E : result → Prop) :
  triple P (mret x : io (St world) A) (λ _, P) E.
Proof. by intros w r HP. Qed.

Lemma triple_ext {A} (P : result → Prop) (m : io world A) (E : result → Prop) :
  (∀ r, P r → E r) → triple P (ext m) (λ _, P) E.
Proof.
  intros HE w r HP. unfold ext. destruct (m w) as [w' [e | x]]; auto.
Qed.

Lemma triple_lift_exn {A} (P : result → Prop) (m : exn + A) (E : result → Prop) :
  (∀ r, P r → E r) → triple P (lift_exn m : io (St world) A) (λ _, P) E.
Proof.
  intros HE w r HP. unfold lift_exn. destruct m as [e | x]; auto.
Qed.

Lemma triple_update (P : result → Prop) (f : result → result)
    (Q : unit → result → Prop) (E : result → Prop) :
  (∀ r, P r → Q () (f r)) →
  triple P (update_result f : io (St world) unit) Q E.
Proof. intros HQ w r HP. by apply HQ. Qed.

Lemma process_email_body_spec (email : gmap string pyval) (id subj : pyval) :
  triple (pending id subj) (process_email_body email)
    (λ _, finished id subj) (pending id subj).
Proof.
  unfold process_email_body.
  apply triple_bind with (Q := λ _, pending id subj).
  { destruct (py_truthy _); [| apply triple_ret].
    apply triple_bind with (Q := λ _, pending id subj);
      [by apply triple_lift_exn |]. intros items.
    apply triple_bind with (Q := λ _, pending id subj);
      [by apply triple_ext |]. intros [all_text sd].
    apply triple_bind with (Q := λ _, pending id subj);
      [by apply triple_update |]. intros _. apply triple_ret. }
  intros extracted_data.
  apply triple_bind with (Q := λ _, pending id subj);
    [by apply triple_ext |]. intros c.
  apply triple_bind with (Q := λ _, classified id subj).
  { apply triple_update. intros r Hr. split; [exact Hr | by eexists]. }
  intros _.
  apply triple_bind with (Q := λ _, classified id subj);
    [apply triple_ext; by intros r [Hr _] |]. intros resp.
  apply triple_bind with (Q := λ _, classified id subj);
    [apply triple_update; by intros r [Hr Hc] |]. intros _.
  apply triple_bind with (Q := λ _, classified id subj);
    [apply triple_ext; by intros r [Hr _] |]. intros q.
  apply triple_bind with (Q := λ _, classified id subj);
    [apply triple_update; by intros r [Hr Hc] |]. intros _.
  apply triple_bind with (Q := λ _, classified id subj);
    [apply triple_ext; by intros r [Hr _] |]. intros a.
  apply triple_bind with (Q := λ _, resolved id subj).
  { apply triple_update. intros r [Hr Hc]. split; [by split | by eexists]. }
  intros _.
  apply triple_bind with (Q := λ _, resolved id subj);
    [apply triple_ext; by intros r [[Hr _] _] |]. intros _.
  apply triple_update. intros r [[(Hid & Hsubj & _ & Herr) Hc] Ha].
  by repeat split.
Qed.

Lemma process_email_recorded (email : gmap string pyval) (w : world) :
  identified email →
  ∃ w' r, process_email email w = (w', inr r) ∧ recorded email w r.
Proof.
  intros [[id Hid] [subj Hsubj]].
  unfold process_email, recorded, dict_item. rewrite Hid, Hsubj.
  unfold mbind, io_bind, lift_exn, with_result, try_except.
  pose proof (process_email_body_spec email id subj w (new_result id subj)) as Hb.
  destruct (process_email_body email (w, new_result id subj))
    as [[w1 r1] [e | []]] eqn:Hrun; simpl.
  - destruct Hb as (Hi & _ & Hs & _); [done |].
    exists w1, (set_error r1 (str_exn e)). split; [done |].
    exists id, subj. by rewrite Hrun.
  - destruct Hb as (Hi & _ & Hs & He & Hc & Ha); [done |].
    exists w1, r1. split; [done |].
    exists id, subj. by rewrite Hrun.
Qed.

Lemma process_email_unidentified (email : gmap string pyval) (w : world) :
  ¬ identified email → ∃ k, process_email email w = (w, inl (KeyError k)).
Proof.
  intros Hn. unfold process_email, dict_item, identified in *.
  destruct (email !! "email_id") as [id |] eqn:Hid; [| by eexists].
  destruct (email !! "subject") as [subj |] eqn:Hsubj; [| by eexists].
  exfalso. apply Hn. by split; eexists.
Qed.

Lemma process_emails_recorded (emails : list (gmap string pyval)) (w : world) :
  Forall identified emails →
  ∃ w' results,
    process_emails emails w = (w', inr results)
    ∧ Forall2 (λ email r, ∃ w0, recorded email w0 r) emails results.
Proof.
  intros Hall. revert w.
  induction Hall as [| email emails Hemail _ IH]; intros w.
  - exists w, []. split; [done | constructor].
  - destruct (process_email_recorded email w Hemail) as (w1 & r & Hrun & Hrec).
    destruct (IH w1) as (w2 & results & Hrest & Hrecs).
    exists w2, (r :: results). split.
    + cbn [process_emails]. unfold mbind, io_bind.
      rewrite Hrun. fold (process_emails emails). by rewrite Hrest.
    + constructor; [by exists w | done].
Qed.
End Boundary.

(** The loader lets only identified emails through. *)
Lemma load_email_identified (fromisoformat : string → option pyval)
    (email_data email : gmap string pyval) :
  load_email fromisoformat email_data = Some email → identified email.
Proof.
  unfold load_email, identified. cbn [forallb].
  repeat match goal with
    | |- context [bool_decide ?P] => destruct (bool_decide_reflect P)
    end; try discriminate.
  cbn [andb]. intros Hload.
  destruct (email_data !! "date") as [[| | | | date |] |];
    try (injection Hload as <-; done).
  destruct (fromisoformat _) as [parsed |]; [| discriminate].
  injection Hload as <-. by rewrite !lookup_insert_ne.
Qed.

Lemma load_all_emails_identified (fromisoformat : string → option pyval)
    (files : list (option (gmap string pyval))) :
  Forall identified (load_all_emails fromisoformat files).
Proof.
  apply Forall_forall. intros email Hin.
  apply list_elem_of_omap in Hin as ([email_data |] & _ & Hload); [| done].
  by eapply load_email_identified.
Qed.

(** ** The summary of a batch *)

Lemma summary_step_counts (acc : summary * list Q) (r : result) :
  complete r →
  ∃ acc', summary_step acc r = inr acc' ∧ same_counts acc'.1 acc.1.
Proof.
  intros Hr. destruct acc as [sm confidences]. unfold summary_step.
  destruct (success r) eqn:Hs; [| by eexists].
  destruct (Hr Hs) as [[c ->] [a ->]]. by eexists.
Qed.

Lemma summary_loop_counts (results : list result) (acc : summary * list Q) :
  Forall complete results →
  ∃ acc', summary_loop results acc = inr acc' ∧ same_counts acc'.1 acc.1.
Proof.
  intros Hall. revert acc.
  induction Hall as [| r results Hr _ IH]; intros acc.
  - by exists acc.
  - destruct (summary_step_counts acc r Hr) as (acc1 & Hstep & H1 & H2 & H3).
    destruct (IH acc1) as (acc2 & Hloop & H1' & H2' & H3').
    exists acc2. split.
    + cbn [summary_loop]. by rewrite Hstep.
    + repeat split; congruence.
Qed.

Lemma generate_summary_counts (results : list result) :
  Forall complete results →
  ∃ s, generate_summary results = inr s
       ∧ total_emails s = length results
       ∧ successful s = length (filter (λ r, success r = true) results)
       ∧ failed s = length (filter (λ r, success r = false) results).
Proof.
  intros Hall. unfold generate_summary.
  match goal with
  | |- context [summary_loop results ?acc] =>
      destruct (summary_loop_counts results acc Hall)
        as ([sm confidences] & -> & H1 & H2 & H3)
  end.
  simpl in *. case_bool_decide; eexists; (split; [reflexivity |]); done.
Qed.

Lemma success_partition (results : list result) :
  length (filter (λ r, success r = true) results)
  + length (filter (λ r, success r = false) results)
  = length results.
Proof.
  induction results as [| r results IH]; [done |].
  rewrite !filter_cons. destruct (success r); simpl; lia.
Qed.

Lemma recorded_complete {world : Type} `{!Components world}
    (email : gmap string pyval) (w : world) (r : result) :
  recorded email w r → complete r.
Proof.
  intros (id & subj & _ & _ & _ & Hrun) Hs.
  destruct (process_email_body email (w, new_result id subj)).2.
  - destruct Hrun as [Hf _]. congruence.
  - by destruct Hrun as (_ & _ & Hc & Ha).
Qed.

(** C6.  In a batch run every loaded email gets one outcome, in the order
    of the input.  An error raised while one email is processed is caught
    at the boundary of that email: the outcome carries the id of the email
    and the text of the error and is a failure, and the emails after it are
    processed.  No error leaves the run, and the successful and failed
    counts of the summary are the numbers of success and of failure
    outcomes, which add up to the number of emails. *)
Theorem batch_isolation {world : Type} `{!Components world}
    (fromisoformat : string → option pyval)
    (files : list (option (gmap string pyval))) (w : world) :
  let emails := load_all_emails fromisoformat files in
  ∃ w' results sm,
    process_all_emails fromisoformat files w = (w', inr results)
    ∧ Forall2 (λ email r, ∃ w0, recorded email w0 r) emails results
    ∧ generate_summary results = inr sm
    ∧ total_emails sm = length emails
    ∧ successful sm = length (filter (λ r, success r = true) results)
    ∧ failed sm = length (filter (λ r, success r = false) results)
    ∧ successful sm + failed sm = length emails.
Proof.
  intros emails.
  destruct (process_emails_recorded emails w
              (load_all_emails_identified fromisoformat files))
    as (w' & results & Hrun & Hrec).
  assert (Hcomplete : Forall complete results).
  { clear Hrun. induction Hrec as [| email r emails' results' [w0 Hr] _ IH];
      constructor; [by eapply recorded_complete | done]. }
  destruct (generate_summary_counts results Hcomplete)
    as (sm & Hsm & Htotal & Hok & Hfail).
  pose proof (Forall2_length _ _ _ Hrec) as Hlen.
  exists w', results, sm. split_and!; try done.
  - congruence.
  - rewrite Hok, Hfail, success_partition. done.
Qed.

(** ** A batch of five emails *)

Example batch_of_five_outcomes :
  outcomes_of (process_all_emails (λ s, Some (PStr s)) five_files quiet_world)
  = inr [(PStr "001", true, None);
         (PStr "002", true, None);
         (PStr "003", false, Some "object of type 'int' has no len()");
         (PStr "004", true, None);
         (PStr "005", true, None)].
Proof. vm_compute. reflexivity. Qed.

Example batch_of_five_counts :
  counts_of (process_all_emails (λ s, Some (PStr s)) five_files quiet_world)
  = inr (5, 4, 1)%nat.
Proof. vm_compute. reflexivity. Qed.

Example batch_without_database :
  counts_of (process_all_emails (λ s, Some (PStr s)) five_files no_database)
  = inr (5, 0, 5)%nat.
Proof. vm_compute. reflexivity. Qed.

(** A file that is not a JSON object, or that lacks a required field,
    does not enter the batch. *)
Example batch_skips_rejected_files :
  outcomes_of
    (process_all_emails (λ s, Some (PStr s))
       [None; Some (delete "sender" (email_record "006" []));
        Some (email_record "007" [])]
       quiet_world)
  = inr [(PStr "007", true, None)].
Proof. vm_compute. reflexivity. Qed.

(** The end-to-end scenarios of the decision rules. *)
Example fraud_scenario :
  let email := email_record "008" [("priority", PStr "critical")] in
  let answer := Some "INTENT: fraud_complaint
CONFIDENCE: 0.92" in
  (λ c, (intent c, should_escalate c email,
         action_type (determine_action email (intent c) (confidence c)),
         assigned_to (determine_action email (intent c) (confidence c))))
    <$> classify email answer
  = inr ("fraud_complaint", (true, "Critical priority email"),
         "escalate", "fraud_department").
Proof. vm_compute. reflexivity. Qed.

Example inquiry_scenario :
  let email := email_record "009" [("priority", PStr "low")] in
  (λ c, (intent c, should_escalate c email,
         action_type (determine_action email (intent c) (confidence c)),
         assigned_to (determine_action email (intent c) (confidence c))))
    <$> classify email inquiry_answer
  = inr ("general_inquiry", (false, "Standard processing"),
         "reply", "customer_support").
Proof. vm_compute. reflexivity. Qed.

(** * Further properties of the code *)

(** ** [classify] on its own and in a batch *)

Lemma classify_returns_closed (email : gmap string pyval)
    (response : option string) :
  promptable email →
  ∃ c, classify email response = inr c ∧ intent c ∈ closed_intents.
Proof.
  intros (Hs & Hf & Hb).
  destruct (classify_intent_returns email response Hs Hf Hb) as [upstream Hup].
  exists (validate_intent upstream). split.
  - unfold classify. by rewrite Hup.
  - apply validate_intent_closed.
Qed.

Lemma classify_not_promptable (email : gmap string pyval)
    (response : option string) :
  ¬ promptable email → ∃ k, classify email response = inl (KeyError k).
Proof.
  intros Hn. apply classify_intent_raises. unfold promptable in Hn.
  destruct (email !! "subject"); [| by left].
  destruct (email !! "sender"); [| by right; left].
  destruct (email !! "body"); [| by right; right].
  exfalso. apply Hn. by split_and!; eexists.
Qed.

Lemma with_completion_classify (email : gmap string pyval) (w : environment) :
  promptable email →
  ∃ w' c, with_completion (classify email) w = (w', inr c)
          ∧ intent c ∈ closed_intents.
Proof.
  intros Hp. unfold with_completion.
  destruct (classify_returns_closed email None Hp) as (c0 & -> & _).
  destruct (next_completion w) as [w' answer].
  destruct (classify_returns_closed email answer Hp) as (c & Hc & Hin).
  exists w', c. by rewrite Hc.
Qed.

Lemma validate_intent_fixed (c : classification) (info : gmap string pyval) :
  INTENT_CATEGORIES !! intent c = Some info →
  category_info c = Some info →
  validate_intent c = c.
Proof.
  intros Hi Hc. unfold validate_intent. rewrite Hi.
  destruct c. unfold set_category_info. simpl in *. by rewrite Hi, Hc.
Qed.

Lemma validate_intent_info (upstream : classification) :
  ∃ info,
    INTENT_CATEGORIES !! intent (validate_intent upstream) = Some info
    ∧ category_info (validate_intent upstream) = Some info.
Proof.
  unfold validate_intent.
  destruct (INTENT_CATEGORIES !! intent upstream) as [info |] eqn:E.
  - exists info. split; [exact E | by rewrite E].
  - destruct (INTENT_CATEGORIES !! "general_inquiry") as [info |] eqn:G.
    + exists info. split; [exact G | unfold set_category_info; simpl; by rewrite G].
    + apply INTENT_CATEGORIES_open in G. exfalso. apply G.
      unfold closed_intents. set_solver.
Qed.

(** Validation is idempotent: a second pass does not attenuate the
    confidence again. *)
Theorem validate_intent_idempotent (upstream : classification) :
  validate_intent (validate_intent upstream) = validate_intent upstream.
Proof.
  destruct (validate_intent_info upstream) as (info & Hi & Hc).
  by apply (validate_intent_fixed _ info).
Qed.

Lemma category_description (d : string) (k t : list string) (p : bool) :
  category d k t p !! "description" = Some (PStr d).
Proof. unfold category. cbn [list_to_map foldr]. apply lookup_insert_eq. Qed.

(** After validation the category metadata is the entry of the intent in
    [INTENT_CATEGORIES], never the empty default, and the description of
    the intent is known; an intent outside the closed set has the
    description "Unknown intent category". *)
Theorem category_info_never_empty (upstream : classification) (i : string) :
  (∃ info description,
     category_info (validate_intent upstream) = Some info
     ∧ INTENT_CATEGORIES !! intent (validate_intent upstream) = Some info
     ∧ get_category_description (intent (validate_intent upstream))
       = PStr description
     ∧ info !! "description" = Some (PStr description)
     ∧ description ≠ "Unknown intent category")
  ∧ (i ∉ closed_intents →
       get_category_description i = PStr "Unknown intent category").
Proof.
  split.
  - destruct (validate_intent_info upstream) as (info & Hi & Hc).
    pose proof Hi as Hitem. apply elem_of_list_to_map_2 in Hitem.
    assert (Hd : ∃ d k t p, info = category d k t p
                            ∧ d ≠ "Unknown intent category").
    { unfold INTENT_CATEGORIES_items in Hitem.
      repeat (apply elem_of_cons in Hitem as [[= _ ->] | Hitem];
              [eexists _, _, _, _; split; [reflexivity | discriminate] |]).
      by apply elem_of_nil in Hitem. }
    destruct Hd as (d & k & t & p & -> & Hne).
    exists (category d k t p), d.
    refine (conj Hc (conj Hi (conj _ (conj (category_description d k t p) Hne)))).
    unfold get_category_description, dict_get. rewrite Hi.
    exact (f_equal (default _) (category_description d k t p)).
  - intros Hi. apply INTENT_CATEGORIES_open in Hi.
    unfold get_category_description. by rewrite Hi.
Qed.

Lemma category_info_never_empty_witness :
  get_category_description "complaint" = PStr "Unknown intent category".
Proof.
  apply (category_info_never_empty loan_sure "complaint").
  apply (bool_decide_unpack _). vm_compute. exact I.
Defined.

(** [classify_batch] returns one classification for each email, with a
    closed-set intent and the id of the email, when the prompt of every
    email can be built. *)
Theorem classify_batch_closed (emails : list (gmap string pyval))
    (w : environment) :
  Forall promptable emails →
  ∃ w' results,
    classify_batch emails w = (w', inr results)
    ∧ Forall2 (λ email cr,
                 intent cr.1 ∈ closed_intents
                 ∧ cr.2 = dict_get email "email_id" PNone)
        emails results.
Proof.
  intros Hall. revert w.
  induction Hall as [| email emails Hp _ IH]; intros w.
  - exists w, []. split; [done | constructor].
  - destruct (with_completion_classify email w Hp) as (w1 & c & Hc & Hin).
    destruct (IH w1) as (w2 & results & Hrest & Hrel).
    exists w2, ((c, dict_get email "email_id" PNone) :: results). split.
    + cbn [classify_batch]. unfold mbind, io_bind. rewrite Hc.
      fold classify_batch. by rewrite Hrest.
    + by constructor.
Qed.

Lemma classify_batch_closed_witness :
  ∃ w' results,
    classify_batch [sample_email; email_record "010" []] quiet_world
    = (w', inr results)
    ∧ Forall2 (λ email cr,
                 intent cr.1 ∈ closed_intents
                 ∧ cr.2 = dict_get email "email_id" PNone)
        [sample_email; email_record "010" []] results.
Proof.
  apply (classify_batch_closed [sample_email; email_record "010" []] quiet_world).
  repeat constructor; by eexists; vm_compute; reflexivity.
Defined.

(** [classify_batch] has no failure boundary: the first email whose
    prompt cannot be built raises [KeyError] out of the batch, and the
    classifications of the emails before it are lost. *)
Theorem classify_batch_aborts (before after : list (gmap string pyval))
    (bad : gmap string pyval) (w : environment) :
  Forall promptable before →
  ¬ promptable bad →
  ∃ w' k, classify_batch (before ++ bad :: after) w = (w', inl (KeyError k)).
Proof.
  intros Hall Hbad. revert w.
  induction Hall as [| email emails Hp _ IH]; intros w.
  - destruct (classify_not_promptable bad None Hbad) as [k Hk].
    exists w, k. cbn [app classify_batch]. unfold mbind, io_bind, with_completion.
    by rewrite Hk.
  - destruct (with_completion_classify email w Hp) as (w1 & c & Hc & _).
    destruct (IH w1) as (w2 & k & Hrest).
    exists w2, k. cbn [app classify_batch]. unfold mbind, io_bind.
    rewrite Hc. fold classify_batch. by rewrite Hrest.
Qed.

Lemma classify_batch_aborts_witness :
  ∃ w' k,
    classify_batch ([sample_email] ++ delete "body" sample_email :: [sample_email])
      quiet_world
    = (w', inl (KeyError k)).
Proof.
  apply (classify_batch_aborts [sample_email] [sample_email]
           (delete "body" sample_email) quiet_world).
  - repeat constructor; by eexists; vm_compute; reflexivity.
  - intros (_ & _ & [b Hb]). vm_compute in Hb. discriminate.
Defined.

(** ** The summary of a list of classifications *)

Lemma count_up_lookup (m : gmap string nat) (k i : string) :
  default 0 (count_up m k !! i)
  = default 0 (m !! i) + (if decide (k = i) then 1 else 0).
Proof.
  unfold count_up. destruct (decide (k = i)) as [-> | Hne].
  - by rewrite lookup_insert_eq.
  - rewrite lookup_insert_ne by done. lia.
Qed.

Lemma intent_summary_loop (cs : list classification)
    (acc : intent_summary.t * Q) :
  let r := foldl intent_summary_step acc cs in
  intent_summary.total r.1 = intent_summary.total acc.1
  ∧ (∀ i, default 0 (intent_summary.by_intent r.1 !! i)
          = default 0 (intent_summary.by_intent acc.1 !! i)
            + length (filter (λ c, intent c = i) cs))
  ∧ intent_summary.high_confidence r.1
    = intent_summary.high_confidence acc.1
      + length (filter (λ c, Qle_bool 0.8 (confidence c) = true) cs)
  ∧ intent_summary.low_confidence r.1
    = intent_summary.low_confidence acc.1
      + length (filter (λ c, Qlt_bool (confidence c) 0.6 = true) cs).
Proof.
  revert acc. induction cs as [| c cs IH]; intros acc; cbn zeta.
  - cbn [foldl filter list_filter length]. split_and!; intros; lia.
  - cbn [foldl]. destruct (IH (intent_summary_step acc c)) as (Ht & Hi & Hh & Hl).
    destruct acc as [sm confidence_sum].
    cbn [intent_summary_step fst intent_summary.total intent_summary.by_intent
         intent_summary.high_confidence intent_summary.low_confidence] in *.
    rewrite !filter_cons. split_and!.
    + exact Ht.
    + intros i. rewrite Hi, count_up_lookup, filter_cons.
      destruct (decide (intent c = i)); cbn [length]; lia.
    + rewrite Hh. destruct (Qle_bool 0.8 (confidence c)) eqn:E.
      * rewrite decide_True by done. cbn [length]. lia.
      * rewrite decide_False by done. lia.
    + rewrite Hl. destruct (Qle_bool 0.8 (confidence c)) eqn:E;
        destruct (Qlt_bool (confidence c) 0.6) eqn:E'.
      * apply Qle_bool_iff in E. apply Qlt_bool_iff in E'. lra.
      * rewrite decide_False by done. lia.
      * rewrite decide_True by done. cbn [length]. lia.
      * rewrite decide_False by done. lia.
Qed.

Lemma exclusive_counts (cs : list classification) :
  length (filter (λ c, Qle_bool 0.8 (confidence c) = true) cs)
  + length (filter (λ c, Qlt_bool (confidence c) 0.6 = true) cs)
  ≤ length cs.
Proof.
  induction cs as [| c cs IH]; [done |].
  rewrite !filter_cons.
  destruct (Qle_bool 0.8 (confidence c)) eqn:E;
    destruct (Qlt_bool (confidence c) 0.6) eqn:E'.
  - apply Qle_bool_iff in E. apply Qlt_bool_iff in E'. lra.
  - rewrite decide_True, decide_False by done. simpl. lia.
  - rewrite decide_False, decide_True by done. simpl. lia.
  - rewrite !decide_False by done. simpl. lia.
Qed.

(** [get_intent_summary] counts every classification once: [total] is the
    length of the list, [by_intent] holds for each intent the number of
    classifications with it, [high_confidence] and [low_confidence] count
    the confidences from 0.8 and below 0.6, and together they do not
    exceed the total. *)
Theorem get_intent_summary_counts (cs : list classification) :
  let sm := get_intent_summary cs in
  intent_summary.total sm = length cs
  ∧ (∀ i, default 0 (intent_summary.by_intent sm !! i)
          = length (filter (λ c, intent c = i) cs))
  ∧ intent_summary.high_confidence sm
    = length (filter (λ c, Qle_bool 0.8 (confidence c) = true) cs)
  ∧ intent_summary.low_confidence sm
    = length (filter (λ c, Qlt_bool (confidence c) 0.6 = true) cs)
  ∧ intent_summary.high_confidence sm + intent_summary.low_confidence sm
    ≤ intent_summary.total sm.
Proof.
  cbn zeta. unfold get_intent_summary.
  match goal with
  | |- context [foldl intent_summary_step ?acc cs] =>
      pose proof (intent_summary_loop cs acc) as H;
      destruct (foldl intent_summary_step acc cs) as [sm confidence_sum]
  end.
  cbn in H. destruct H as (Ht & Hi & Hh & Hl).
  assert (Hsum := exclusive_counts cs).
  destruct cs as [| c cs];
    cbn [intent_summary.total intent_summary.by_intent
         intent_summary.high_confidence intent_summary.low_confidence];
    rewrite Ht, Hh, Hl; split_and!; try done; try lia.
  all: intros i; by rewrite Hi, lookup_empty.
Qed.

Lemma confidence_sum_bounds (cs : list classification)
    (acc : intent_summary.t * Q) :
  Forall (λ c, (0 <= confidence c)%Q ∧ (confidence c <= 1)%Q) cs →
  (acc.2 <= (foldl intent_summary_step acc cs).2)%Q
  ∧ ((foldl intent_summary_step acc cs).2
     <= acc.2 + inject_Z (Z.of_nat (length cs)))%Q.
Proof.
  intros Hall. revert acc.
  induction Hall as [| c cs [H0 H1] _ IH]; intros acc.
  - cbn [foldl length]. change (inject_Z (Z.of_nat 0)) with 0%Q. split; lra.
  - cbn [foldl length]. destruct (IH (intent_summary_step acc c)) as [Hlo Hhi].
    destruct acc as [sm confidence_sum].
    cbn [intent_summary_step snd] in *.
    rewrite Nat2Z.inj_succ. unfold Z.succ. rewrite inject_Z_plus.
    change (inject_Z 1) with 1%Q. split; lra.
Qed.

(** The average of [get_intent_summary] is 0.0 for the empty list, and
    lies in [0, 1] when every confidence does. *)
Theorem get_intent_summary_average (cs : list classification) :
  (cs = [] → intent_summary.avg_confidence (get_intent_summary cs) = 0.0%Q)
  ∧ (cs ≠ [] →
     Forall (λ c, (0 <= confidence c)%Q ∧ (confidence c <= 1)%Q) cs →
     (0 <= intent_summary.avg_confidence (get_intent_summary cs))%Q
     ∧ (intent_summary.avg_confidence (get_intent_summary cs) <= 1)%Q).
Proof.
  split.
  - by intros ->.
  - intros Hne Hall. unfold get_intent_summary.
    match goal with
    | |- context [foldl intent_summary_step ?acc cs] =>
        pose proof (confidence_sum_bounds cs acc Hall) as [Hlo Hhi];
        destruct (foldl intent_summary_step acc cs) as [sm confidence_sum]
    end.
    cbn [snd] in *. destruct cs as [| c cs]; [done |].
    cbn [intent_summary.avg_confidence].
    set (n := inject_Z (Z.of_nat (length (c :: cs)))) in *.
    assert (Hn : (0 < n)%Q).
    { subst n. change 0%Q with (inject_Z 0). rewrite <- Zlt_Qlt.
      cbn [length]. lia. }
    split.
    + apply Qle_shift_div_l; [done | lra].
    + apply Qle_shift_div_r; [done | lra].
Qed.

Lemma get_intent_summary_average_witness :
  (0 <= intent_summary.avg_confidence
          (get_intent_summary [loan_sure; fraud_low_confidence]))%Q
  ∧ (intent_summary.avg_confidence
       (get_intent_summary [loan_sure; fraud_low_confidence]) <= 1)%Q.
Proof.
  apply (get_intent_summary_average [loan_sure; fraud_low_confidence]).
  - discriminate.
  - repeat constructor; vm_compute; discriminate.
Defined.

(** ** The quality of a classification *)

Lemma round_half_even_bounds (q : Q) (a b : Z) :
  (inject_Z a <= q)%Q → (q <= inject_Z b)%Q →
  (a <= round_half_even q <= b)%Z.
Proof.
  destruct q as [n d]. unfold Qle, inject_Z, round_half_even. cbn [Qnum Qden].
  intros Ha Hb. rewrite !Z.mul_1_r in *.
  pose proof (Z.div_mod n (Z.pos d) ltac:(lia)) as Hdm.
  pose proof (Z.mod_pos_bound n (Z.pos d) ltac:(lia)) as Hm.
  assert (Hfl : (a <= n / Z.pos d)%Z) by (apply Z.div_le_lower_bound; lia).
  assert (Hfu : (n / Z.pos d <= b)%Z).
  { apply Z.div_le_upper_bound; [lia |]. nia. }
  repeat case_match; try lia.
  all: assert ((n / Z.pos d < b)%Z) by nia; lia.
Qed.

Lemma py_round1_bounds (x : Q) (a b : Z) :
  (inject_Z a <= x)%Q → (x <= inject_Z b)%Q →
  (inject_Z a <= py_round1 x)%Q ∧ (py_round1 x <= inject_Z b)%Q.
Proof.
  intros Ha Hb.
  destruct (round_half_even_bounds (x * 10) (a * 10) (b * 10)) as [Hl Hu].
  - rewrite inject_Z_mult. change (inject_Z 10) with 10%Q. lra.
  - rewrite inject_Z_mult. change (inject_Z 10) with 10%Q. lra.
  - unfold py_round1, Qle, inject_Z. cbn [Qnum Qden]. lia.
Qed.


(** The quality score of a classification that went through validation:
    the intent counts as valid, and for a confidence in [0, 1] the score is
    between 20 and 100. *)
Theorem classification_quality_bounds (upstream : classification) :
  let c := validate_intent upstream in
  let q := analyze_classification_quality c in
  classification_quality.valid_intent q = true
  ∧ ((0 <= confidence c)%Q ∧ (confidence c <= 1)%Q →
     (20 <= classification_quality.quality_score q)%Q
     ∧ (classification_quality.quality_score q <= 100)%Q).
Proof.
  cbn zeta.
  destruct (validate_intent_info upstream) as (info & Hi & _).
  set (c := validate_intent upstream) in *.
  cbn [analyze_classification_quality classification_quality.valid_intent
       classification_quality.quality_score].
  assert (Hv : bool_decide (is_Some (INTENT_CATEGORIES !! intent c)) = true)
    by (apply bool_decide_eq_true; by eexists).
  rewrite Hv. split; [done |]. intros [H0 H1].
  change 20%Q with (inject_Z 20). change 100%Q with (inject_Z 100).
  apply py_round1_bounds.
  - change (inject_Z 20) with 20%Q.
    destruct (negb (String.eqb (reasoning c) ""));
      (destruct (sub_category c) as [s |];
       [destruct (negb (String.eqb s "")) |]); cbv iota; lra.
  - change (inject_Z 100) with 100%Q. change (inject_Z 20) with 20%Q.
    destruct (negb (String.eqb (reasoning c) ""));
      (destruct (sub_category c) as [s |];
       [destruct (negb (String.eqb s "")) |]); cbv iota; lra.
Qed.

Lemma classification_quality_bounds_witness :
  (20 <= classification_quality.quality_score
           (analyze_classification_quality (validate_intent loan_sure)))%Q
  ∧ (classification_quality.quality_score
       (analyze_classification_quality (validate_intent loan_sure)) <= 100)%Q.
Proof.
  apply (classification_quality_bounds loan_sure).
  split; vm_compute; discriminate.
Defined.

Example quality_of_sure_loan :
  classification_quality.quality_score
    (analyze_classification_quality
       {| intent := "loan_request"; confidence := 0.95;
          sub_category := Some "home_loan";
          reasoning := "Customer explicitly mentions loan application";
          category_info := None |})
  = 97.0%Q.
Proof. vm_compute. reflexivity. Qed.

(** ** The parser of the answer of the model *)

Lemma parse_line_unlabelled (line : string) (result : classification) :
  has_label line = false → parse_line line result = inr result.
Proof.
  unfold has_label, parse_line. cbn [existsb].
  intros H. repeat (apply orb_false_elim in H as [-> H]). reflexivity.
Qed.

(** An answer without a line that starts with one of the four labels is
    parsed to the initial dict, and [classify] makes it a general inquiry
    with confidence 0.5. *)
Theorem unlabelled_answer_is_general_inquiry (email_data : gmap string pyval)
    (response : string) :
  promptable email_data →
  response ≠ "" →
  Forall (λ line, has_label line = false) (split_on LF (strip response)) →
  _parse_classification_response response = unparsed
  ∧ ∃ c, classify email_data (Some response) = inr c
         ∧ intent c = "general_inquiry"
         ∧ confidence c = 0.5%Q
         ∧ reasoning c = "".
Proof.
  intros (Hs & Hf & Hb) Hne Hall.
  assert (Hparse : _parse_classification_response response = unparsed).
  { unfold _parse_classification_response. fold unparsed.
    induction Hall as [| line lines Hl _ IH]; [done |].
    cbn [parse_lines]. by rewrite parse_line_unlabelled. }
  split; [done |].
  exists (validate_intent unparsed). split_and!; try reflexivity.
  unfold classify, classify_intent, dict_item.
  destruct Hs as [? ->], Hf as [? ->], Hb as [? ->].
  destruct response; [done |]. cbn [mbind exn_bind]. by rewrite Hparse.
Qed.

Lemma unlabelled_answer_is_general_inquiry_witness :
  ∃ c, classify sample_email (Some "I am sorry, I cannot
classify this email.") = inr c
       ∧ intent c = "general_inquiry"
       ∧ confidence c = 0.5%Q
       ∧ reasoning c = "".
Proof.
  apply (unlabelled_answer_is_general_inquiry sample_email "I am sorry, I cannot
classify this email.").
  - split_and!; by eexists; vm_compute; reflexivity.
  - discriminate.
  - vm_compute split_on. repeat (constructor; [vm_compute; reflexivity |]).
    constructor.
Defined.

Lemma parse_line_bad_confidence (line : string) (result : classification) :
  startswith (strip line) "CONFIDENCE:" = true →
  py_float (strip (replace (strip line) "CONFIDENCE:" "")) = None →
  ∃ e, parse_line line result = inl e.
Proof.
  unfold parse_line, startswith. intros Hc Hf.
  assert (Hi : String.prefix "INTENT:" (strip line) = false).
  { destruct (strip line) as [| a l]; [done |].
    cbn [String.prefix] in Hc |- *.
    destruct (ascii_dec "C" a) as [<- |]; [done | discriminate]. }
  rewrite Hi, Hc, Hf. by eexists.
Qed.

(** The [try] block encloses the whole loop: a CONFIDENCE line whose
    number does not parse ends the parsing, and the lines after it are not
    read. *)
Theorem bad_confidence_ends_parsing (before after : list string)
    (bad : string) (result : classification) :
  startswith (strip bad) "CONFIDENCE:" = true →
  py_float (strip (replace (strip bad) "CONFIDENCE:" "")) = None →
  parse_lines (before ++ bad :: after) result = parse_lines before result.
Proof.
  intros Hc Hf. revert result.
  induction before as [| line before IH]; intros result.
  - cbn [app parse_lines].
    by destruct (parse_line_bad_confidence bad result Hc Hf) as [e ->].
  - cbn [app parse_lines]. destruct (parse_line line result); [done | apply IH].
Qed.

Lemma bad_confidence_ends_parsing_witness :
  parse_lines (["REASONING: clear case"] ++ "CONFIDENCE: high"
                 :: ["INTENT: fraud_complaint"]) unparsed
  = parse_lines ["REASONING: clear case"] unparsed.
Proof.
  apply (bad_confidence_ends_parsing ["REASONING: clear case"]
           ["INTENT: fraud_complaint"] "CONFIDENCE: high" unparsed);
    vm_compute; reflexivity.
Defined.

Example fraud_label_after_bad_confidence :
  (λ c, (intent c, confidence c))
    <$> classify sample_email (Some "CONFIDENCE: high
INTENT: fraud_complaint")
  = inr ("general_inquiry", 0.5%Q).
Proof. vm_compute. reflexivity. Qed.

(** ** What the matcher consumes *)

Lemma all_chars_app (p : ascii → bool) (s t : string) :
  all_chars p (s +:+ t) = all_chars p s && all_chars p t.
Proof.
  induction s as [| c s IH]; [done |].
  rewrite append_cons. cbn [all_chars]. by rewrite IH, andb_assoc.
Qed.

Lemma all_chars_mono (p q : ascii → bool) (s : string) :
  (∀ c, p c = true → q c = true) →
  all_chars p s = true → all_chars q s = true.
Proof.
  intros Hpq. induction s as [| c s IH]; [done |].
  cbn [all_chars]. rewrite !andb_true_iff. intros [Hc Hs]. auto.
Qed.

Lemma append_assoc (s t u : string) : (s +:+ t) +:+ u = s +:+ t +:+ u.
Proof. induction s as [| c s IH]; [done |]. by rewrite !append_cons, IH. Qed.

Lemma append_empty_r (s : string) : s +:+ "" = s.
Proof. induction s as [| c s IH]; [done |]. by rewrite append_cons, IH. Qed.

Lemma length_append (s t : string) :
  String.length (s +:+ t) = String.length s + String.length t.
Proof. induction s as [| c s IH]; [done |]. rewrite append_cons. cbn. by rewrite IH. Qed.

(** A successful match has consumed a prefix of the text, made of
    characters that the pattern accepts, and has called its continuation
    on the rest. *)
Lemma re_match_consumed {A} (r : regex) (prev : option ascii) (s : string)
    (k : option ascii → string → option A) (a : A) :
  re_match r prev s k = Some a →
  ∃ pre prev' s',
    s = pre +:+ s' ∧ all_chars (accepts_char r) pre = true
    ∧ k prev' s' = Some a.
Proof.
  revert prev s k a.
  induction r as [| p | r1 IH1 r2 IH2 | r1 IH1 r2 IH2 | r1 IH1 |];
    intros prev s k a; cbn [re_match].
  - intros H. by exists "", prev, s.
  - destruct s as [| c s]; [done |].
    destruct (p c) eqn:Hp; [| done]. intros H.
    exists (String c ""), (Some c), s. cbn. by rewrite Hp.
  - intros H. apply IH1 in H as (pre1 & p1 & s1 & -> & Hc1 & H).
    apply IH2 in H as (pre2 & p2 & s2 & -> & Hc2 & H).
    exists (pre1 +:+ pre2), p2, s2. split_and!; [by rewrite append_assoc | | done].
    rewrite all_chars_app, andb_true_iff. split.
    + eapply all_chars_mono; [| exact Hc1]. cbn. intros c ->. done.
    + eapply all_chars_mono; [| exact Hc2]. cbn. intros c ->. apply orb_true_r.
  - destruct (re_match r1 prev s k) as [a1 |] eqn:H1.
    + intros [= <-]. apply IH1 in H1 as (pre & p1 & s1 & -> & Hc & H).
      exists pre, p1, s1. split_and!; [done | | done].
      eapply all_chars_mono; [| exact Hc]. cbn. intros c ->. done.
    + intros H. apply IH2 in H as (pre & p1 & s1 & -> & Hc & H).
      exists pre, p1, s1. split_and!; [done | | done].
      eapply all_chars_mono; [| exact Hc]. cbn. intros c ->. apply orb_true_r.
  - generalize (String.length s). intros n. revert prev s.
    induction n as [| n IHn]; intros prev s.
    + intros H. by exists "", prev, s.
    + destruct (re_match r1 prev s _) as [a1 |] eqn:H1.
      * intros [= <-]. apply IH1 in H1 as (pre1 & p1 & s1 & -> & Hc1 & H).
        destruct (_ <? _)%nat; [| done].
        apply IHn in H as (pre2 & p2 & s2 & -> & Hc2 & H).
        exists (pre1 +:+ pre2), p2, s2.
        split_and!; [by rewrite append_assoc | | done].
        rewrite all_chars_app, andb_true_iff. done.
      * intros H. by exists "", prev, s.
  - destruct (xorb _ _); [| done]. intros H. by exists "", prev, s.
Qed.

(** A continuation that keeps a property of its answers passes it on. *)
Lemma re_match_answer {A} (P : A → Prop) (r : regex) (prev : option ascii)
    (s : string) (k : option ascii → string → option A) (a : A) :
  (∀ p s' a', k p s' = Some a' → P a') →
  re_match r prev s k = Some a → P a.
Proof.
  intros Hk H. apply re_match_consumed in H as (_ & p & s' & _ & _ & H).
  by eapply Hk.
Qed.

Lemma re_match_Lit {A} (w : string) (prev : option ascii) (s : string)
    (k : option ascii → string → option A) (a : A) :
  re_match (Lit w) prev s k = Some a →
  ∃ prev' s', s = w +:+ s' ∧ k prev' s' = Some a.
Proof.
  revert prev s. induction w as [| c w IH]; intros prev s; cbn [Lit re_match].
  - intros H. by exists prev, s.
  - destruct s as [| c' s]; [done |].
    destruct (Ascii.eqb c c') eqn:Hc; [| done]. apply Ascii.eqb_eq in Hc as <-.
    intros H. apply IH in H as (p & s' & -> & H). by exists p, s'.
Qed.

Lemma take_str_app (w s : string) :
  take_str (String.length (w +:+ s) - String.length s) (w +:+ s) = w.
Proof.
  rewrite length_append. replace (_ + _ - _) with (String.length w) by lia.
  unfold take_str. induction w as [| c w IH].
  - by destruct s.
  - rewrite append_cons. cbn. by rewrite IH.
Qed.

(** Every match that [findall] returns is the group of a match at some
    position of the text. *)
Lemma findall_go_elem (p : pattern) (prev : option ascii) (s : string)
    (skip : nat) (x : string) :
  x ∈ findall_go p prev s skip →
  ∃ prev' pre s' len, s = pre +:+ s' ∧ match_at p prev' s' = Some (x, len).
Proof.
  revert prev skip. induction s as [| c s IH]; intros prev skip; cbn [findall_go].
  - destruct skip; [| by intros ?%elem_of_nil].
    destruct (match_at p prev "") as [[g len] |] eqn:Hm;
      [| by intros ?%elem_of_nil].
    intros ->%list_elem_of_singleton. by exists prev, "", "", len.
  - assert (Hrest : ∀ skip', x ∈ findall_go p (Some c) s skip' →
              ∃ prev' pre s' len,
                String c s = pre +:+ s' ∧ match_at p prev' s' = Some (x, len)).
    { intros skip' Hin. apply IH in Hin as (prev' & pre & s' & len & -> & Hm).
      by exists prev', (String c pre), s', len. }
    destruct skip; [| apply Hrest].
    destruct (match_at p prev (String c s)) as [[g len] |] eqn:Hm;
      [| apply Hrest].
    intros [-> | Hin]%elem_of_cons; [| by eapply Hrest].
    by exists prev, "", (String c s), len.
Qed.

(** The account-number pattern has a capturing group around its prefix:
    what [extract_structured_data] keeps of an account number is that
    prefix, "ACC" or "BUS-ACC", without the digits, so that there are at
    most two account numbers. *)
Theorem account_numbers_are_prefixes (text : string) :
  (∀ x, x ∈ account_numbers (extract_structured_data text) →
        x = "ACC" ∨ x = "BUS-ACC")
  ∧ length (account_numbers (extract_structured_data text)) ≤ 2.
Proof.
  assert (Hx : ∀ x, x ∈ account_numbers (extract_structured_data text) →
                    x ∈ ["ACC"; "BUS-ACC"]).
  { intros x Hin. cbn [extract_structured_data account_numbers] in Hin.
    rewrite list_set_elem in Hin. unfold findall in Hin.
    apply findall_go_elem in Hin as (prev & pre & s & len & _ & Hm).
    unfold match_at in Hm.
    change (re_pre account_number_pattern) with Eps in Hm.
    change (re_group account_number_pattern)
      with (Alt (Lit "ACC") (Lit "BUS-ACC")) in Hm.
    set (post := re_post account_number_pattern) in Hm. clearbody post.
    cbn [re_match] in Hm.
    match type of Hm with
    | match ?m with _ => _ end = _ => destruct m as [a |] eqn:H1
    end.
    - injection Hm as ->. apply re_match_Lit in H1 as (p & s' & -> & H1).
      eapply (re_match_answer (λ a, a.1 = "ACC")) in H1.
      + cbn in H1. subst x. set_solver.
      + intros ? ? ? [= <-]. cbn. apply (take_str_app "ACC").
    - apply re_match_Lit in Hm as (p & s' & -> & Hm).
      eapply (re_match_answer (λ a, a.1 = "BUS-ACC")) in Hm.
      + cbn in Hm. subst x. set_solver.
      + intros ? ? ? [= <-]. cbn. apply (take_str_app "BUS-ACC"). }
  split.
  - intros x Hin. apply Hx in Hin.
    apply elem_of_cons in Hin as [-> | Hin]; [by left |].
    apply list_elem_of_singleton in Hin as ->. by right.
  - change 2 with (length ["ACC"; "BUS-ACC"]).
    apply submseteq_length, NoDup_submseteq; [| done].
    cbn [extract_structured_data account_numbers]. apply list_set_NoDup.
Qed.

Lemma account_numbers_are_prefixes_witness :
  "BUS-ACC" = "ACC" ∨ "BUS-ACC" = "BUS-ACC".
Proof.
  apply (account_numbers_are_prefixes "Business account BUS-ACC-1234-5678").
  vm_compute. constructor.
Defined.

Example account_numbers_of_two_accounts :
  account_numbers
    (extract_structured_data "From ACC-1234-5678 to ACC-8765-4321")
  = ["ACC"].
Proof. vm_compute. reflexivity. Qed.

(** ** Texts without evidence *)

(** A successful match starts with a character of [starts], unless the
    pattern matched the empty text and the continuation succeeded on the
    whole text. *)
Lemma re_match_starts {A} (r : regex) (prev : option ascii) (s : string)
    (k : option ascii → string → option A) (a : A) :
  re_match r prev s k = Some a →
  (∃ c s', s = String c s' ∧ starts r c = true)
  ∨ (nullable r = true ∧ ∃ prev', k prev' s = Some a).
Proof.
  revert prev s k a.
  induction r as [| p | r1 IH1 r2 IH2 | r1 IH1 r2 IH2 | r1 IH1 |];
    intros prev s k a; cbn [re_match nullable starts].
  - intros H. right. eauto.
  - destruct s as [| c s]; [done |]. destruct (p c) eqn:Hp; [| done].
    intros _. left. eauto.
  - intros H. apply IH1 in H as [(c & s' & -> & Hc) | (Hn & p1 & H)].
    + left. exists c, s'. by rewrite Hc.
    + apply IH2 in H as [(c & s' & -> & Hc) | (Hn2 & p2 & H)].
      * left. exists c, s'. rewrite Hn, Hc. by rewrite orb_true_r.
      * right. rewrite Hn, Hn2. eauto.
  - destruct (re_match r1 prev s k) as [a1 |] eqn:H1.
    + intros [= <-]. apply IH1 in H1 as [(c & s' & -> & Hc) | (Hn & p1 & H)].
      * left. exists c, s'. by rewrite Hc.
      * right. rewrite Hn. eauto.
    + intros H. apply IH2 in H as [(c & s' & -> & Hc) | (Hn & p1 & H)].
      * left. exists c, s'. rewrite Hc. by rewrite orb_true_r.
      * right. rewrite Hn, orb_true_r. eauto.
  - destruct (String.length s) as [| n]; [intros H; right; eauto |].
    destruct (re_match r1 prev s _) as [a1 |] eqn:H1.
    + intros [= <-]. apply IH1 in H1 as [(c & s' & -> & Hc) | (_ & p1 & H)].
      * left. eauto.
      * by rewrite Nat.ltb_irrefl in H.
    + intros H. right. eauto.
  - destruct (xorb _ _); [| done]. intros H. right. eauto.
Qed.

Lemma match_at_starts (p : pattern) (prev : option ascii) (s : string)
    (x : string * nat) :
  nullable (re_group p) = false →
  match_at p prev s = Some x →
  ∃ c s', s = String c s'
          ∧ (starts (re_pre p) c || starts (re_group p) c) = true.
Proof.
  intros Hn Hm. unfold match_at in Hm.
  apply re_match_starts in Hm as [(c & s' & -> & Hc) | (_ & p1 & Hm)].
  - exists c, s'. by rewrite Hc.
  - apply re_match_starts in Hm as [(c & s' & -> & Hc) | (Hn' & _)].
    + exists c, s'. rewrite Hc. by rewrite orb_true_r.
    + congruence.
Qed.

Lemma findall_none (p : pattern) (text : string) :
  (∀ prev pre s x, text = pre +:+ s → match_at p prev s ≠ Some x) →
  findall p text = [].
Proof.
  intros Hno. destruct (findall p text) as [| x xs] eqn:E; [done |].
  assert (Hin : x ∈ findall p text) by (rewrite E; by left).
  apply findall_go_elem in Hin as (prev & pre & s & len & Heq & Hm).
  by destruct (Hno prev pre s (x, len) Heq).
Qed.

(** A pattern whose matches start with a trigger character finds
    nothing in a quiet text. *)
Lemma findall_quiet (p : pattern) (text : string) :
  nullable (re_group p) = false →
  (∀ c, starts (re_pre p) c || starts (re_group p) c = true → trigger c = true) →
  quiet_text text = true →
  findall p text = [].
Proof.
  intros Hn Hst Hq. apply findall_none. intros prev pre s x -> Hm.
  unfold quiet_text in Hq. rewrite all_chars_app, andb_true_iff in Hq.
  destruct Hq as [_ Hq].
  apply match_at_starts in Hm as (c & s' & -> & Hc); [| done].
  cbn [all_chars] in Hq. apply andb_true_iff in Hq as [Hq _].
  apply Hst in Hc. by rewrite Hc in Hq.
Qed.

Ltac each_ascii c :=
  destruct c as [[] [] [] [] [] [] [] []]; vm_compute; try reflexivity;
  try discriminate.

Lemma account_starts (c : ascii) :
  starts (re_pre account_number_pattern) c
  || starts (re_group account_number_pattern) c = true → trigger c = true.
Proof. each_ascii c. Qed.

Lemma amount_starts (c : ascii) :
  starts (re_pre amount_pattern) c || starts (re_group amount_pattern) c = true →
  trigger c = true.
Proof. each_ascii c. Qed.

Lemma date_starts (c : ascii) :
  starts (re_pre date_pattern) c || starts (re_group date_pattern) c = true →
  trigger c = true.
Proof. each_ascii c. Qed.

Lemma phone_starts (c : ascii) :
  starts (re_pre phone_pattern) c || starts (re_group phone_pattern) c = true →
  trigger c = true.
Proof. each_ascii c. Qed.

Lemma name_starts (c : ascii) :
  starts (re_pre name_pattern) c || starts (re_group name_pattern) c = true →
  trigger c = true.
Proof. each_ascii c. Qed.

Lemma re_match_Seq {A} (r1 r2 : regex) (prev : option ascii) (s : string)
    (k : option ascii → string → option A) :
  re_match (Seq r1 r2) prev s k
  = re_match r1 prev s (λ prev' s', re_match r2 prev' s' k).
Proof. reflexivity. Qed.

(** A match of the email pattern goes over an [@]. *)
Lemma findall_email_quiet (text : string) :
  quiet_text text = true → findall email_pattern text = [].
Proof.
  intros Hq. apply findall_none. intros prev pre s x -> Hm.
  unfold quiet_text in Hq. rewrite all_chars_app, andb_true_iff in Hq.
  destruct Hq as [_ Hq].
  unfold match_at in Hm.
  change (re_pre email_pattern) with Eps in Hm.
  match type of Hm with
  | context [re_match (re_group email_pattern)] =>
      unfold email_pattern, whole in Hm; cbn [re_group re_post] in Hm
  end.
  change (re_match Eps prev s ?k) with (k prev s) in Hm. cbv beta in Hm.
  rewrite re_match_Seq in Hm.
  apply re_match_consumed in Hm as (pre1 & p1 & s1 & -> & _ & Hm).
  rewrite re_match_Seq in Hm.
  apply re_match_Lit in Hm as (p2 & s2 & -> & _).
  rewrite all_chars_app, andb_true_iff in Hq. destruct Hq as [_ Hq].
  by vm_compute in Hq.
Qed.

(** A text without an upper-case letter, a digit, a dollar sign, an
    opening parenthesis or an [@], in particular the empty text, gives an
    evidence bag of empty collections. *)
Theorem quiet_text_has_no_evidence (text : string) :
  quiet_text text = true → extract_structured_data text = empty_data.
Proof.
  intros Hq. unfold extract_structured_data, _extract_names, empty_data.
  rewrite (findall_quiet account_number_pattern text eq_refl account_starts Hq).
  rewrite (findall_quiet amount_pattern text eq_refl amount_starts Hq).
  rewrite (findall_quiet date_pattern text eq_refl date_starts Hq).
  rewrite (findall_quiet phone_pattern text eq_refl phone_starts Hq).
  rewrite (findall_quiet name_pattern text eq_refl name_starts Hq).
  rewrite (findall_email_quiet text Hq).
  reflexivity.
Qed.

Lemma quiet_text_has_no_evidence_witness :
  extract_structured_data "please see the attached statement." = empty_data
  ∧ extract_structured_data "" = empty_data.
Proof.
  split; apply quiet_text_has_no_evidence; reflexivity.
Defined.

(** ** The key fields of a document *)

Lemma py_max_list_spec (x : Q) (xs : list Q) :
  py_max_list x xs ∈ x :: xs
  ∧ Forall (λ a, (a <= py_max_list x xs)%Q) (x :: xs).
Proof.
  unfold py_max_list. revert x. induction xs as [| y xs IH]; intros x.
  - cbn. split; [by left | repeat constructor; apply Qle_refl].
  - cbn [foldl]. destruct (IH (py_max x y)) as [Hin Hall].
    apply Forall_cons in Hall as [Hm Hall].
    destruct (py_max_cases x y) as [[Hlt Heq] | [Hle Heq]]; rewrite Heq in *.
    + split.
      * by right.
      * constructor; [lra |]. by constructor.
    + split.
      * apply elem_of_cons in Hin as [-> | Hin]; [by left | by do 2 right].
      * constructor; [done |]. constructor; [lra | done].
Qed.

Lemma head_elem {A} (l : list A) (x : A) : head l = Some x → x ∈ l.
Proof. destruct l; [done |]. intros [= ->]. by left. Qed.

(** The key fields agree with the structured data of the same text: the
    amount is absent exactly when there is no amount, and otherwise it is
    one of the amounts and no amount is greater; the account number, the
    date and the name are among the extracted ones. *)
Theorem key_fields_agree (text : string) :
  let k := extract_key_fields text in
  let data := extract_structured_data text in
  (key_amount k = None ↔ amounts data = [])
  ∧ (∀ m, key_amount k = Some m →
          m ∈ amounts data ∧ Forall (λ a, (a <= m)%Q) (amounts data))
  ∧ (∀ x, key_account_number k = Some x → x ∈ account_numbers data)
  ∧ (∀ x, key_date k = Some x → x ∈ dates data)
  ∧ (∀ x, key_name k = Some x → x ∈ names data).
Proof.
  cbn zeta.
  cbn [extract_key_fields extract_structured_data key_amount key_account_number
       key_date key_name amounts account_numbers dates names].
  split_and!.
  - by destruct (_parse_amount <$> findall amount_pattern text).
  - intros m. destruct (_parse_amount <$> findall amount_pattern text)
      as [| a amounts]; [done |].
    intros [= <-]. apply py_max_list_spec.
  - intros x Hx. apply list_set_elem. by apply head_elem.
  - intros x Hx. apply list_set_elem. by apply head_elem.
  - intros x Hx. by apply head_elem.
Qed.

Lemma key_fields_agree_witness :
  1200.50%Q ∈ amounts (extract_structured_data "Paid $5, $1,200.50 and $30")
  ∧ Forall (λ a, (a <= 1200.50)%Q)
      (amounts (extract_structured_data "Paid $5, $1,200.50 and $30")).
Proof.
  apply (key_fields_agree "Paid $5, $1,200.50 and $30").
  vm_compute. reflexivity.
Defined.

(** ** Replies from the templates *)

Lemma lower_app (s t : string) : lower (s +:+ t) = lower s +:+ lower t.
Proof.
  induction s as [| c s IH]; [done |].
  rewrite append_cons. cbn [lower]. by rewrite IH, append_cons.
Qed.

Lemma contains_app_r (s t w : string) :
  contains t w = true → contains (s +:+ t) w = true.
Proof.
  rewrite !contains_spec. intros (pre & post & ->).
  exists (s +:+ pre), post. by rewrite append_assoc.
Qed.

Lemma any_in_app_r (words : list string) (s t : string) :
  any_in words t = true → any_in words (s +:+ t) = true.
Proof.
  unfold any_in. rewrite !existsb_exists. intros (w & Hin & Hw).
  exists w. split; [done | by apply contains_app_r].
Qed.

Lemma drop_str_app (s t : string) (m : nat) :
  drop_str (String.length s + m) (s +:+ t) = drop_str m t.
Proof. induction s as [| c s IH]; [done |]. by rewrite append_cons. Qed.

Lemma last_chars_app (n : nat) (s t : string) :
  n ≤ String.length t → last_chars n (s +:+ t) = last_chars n t.
Proof.
  intros Hn. unfold last_chars. rewrite length_append.
  replace (String.length s + String.length t - n)
    with (String.length s + (String.length t - n)) by lia.
  apply drop_str_app.
Qed.

Lemma greeting_dear (x : string) :
  contains (take_str 100 (lower ("Dear " +:+ x))) "dear" = true.
Proof. rewrite !append_cons, append_nil. reflexivity. Qed.

(** A reply that is "Dear", a name and a good tail has the greeting, the
    closing and the next steps of the rubric. *)
Lemma good_tail_flags (name tail : string) (r : response) :
  response_text r = "Dear " +:+ name +:+ tail →
  good_tail tail = true →
  has_greeting (evaluate_response_quality r) = true
  ∧ has_closing (evaluate_response_quality r) = true
  ∧ has_next_steps (evaluate_response_quality r) = true.
Proof.
  intros Htext Hgood. unfold good_tail in Hgood.
  apply andb_true_iff in Hgood as [Hgood Hnext].
  apply andb_true_iff in Hgood as [Hlen Hclose].
  apply Nat.leb_le in Hlen.
  cbn [evaluate_response_quality has_greeting has_closing has_next_steps].
  rewrite Htext. split_and!.
  - apply greeting_dear.
  - rewrite <- append_assoc, lower_app, last_chars_app; [done |].
    clear -Hlen. revert Hlen. generalize 200. induction tail as [| c t IH].
    + done.
    + intros [| n] Hn; cbn in *; [lia |]. specialize (IH n). lia.
  - rewrite <- append_assoc, lower_app. by apply any_in_app_r.
Qed.

(** The shape of every reply of [generate_with_template], with or without
    a disclaimer. *)
Lemma templated_reply_shape (py_str : pyval → string) (intent intent' : string)
    (personalization : gmap string pyval) :
  ∃ tail,
    add_disclaimer (generate_with_template py_str intent personalization) intent'
    = "Dear "
      +:+ py_str (dict_get personalization "customer_name" (PStr "Valued Customer"))
      +:+ tail
    ∧ good_tail tail = true.
Proof.
  unfold add_disclaimer, generate_with_template, _generate_generic_response.
  set (name := py_str _).
  assert (Hd : default "" (disclaimers !! intent') ∈ "" :: disclaimers_items.*2).
  { destruct (disclaimers !! intent') as [d |] eqn:E; [| by left].
    right. apply elem_of_list_to_map_2 in E.
    apply list_elem_of_fmap. by exists (intent', d). }
  generalize dependent (default "" (disclaimers !! intent')). intros d Hd.
  destruct (RESPONSE_TEMPLATES !! intent) as [t |] eqn:E.
  - apply elem_of_list_to_map_2 in E.
    assert (Ht : t ∈ RESPONSE_TEMPLATES_items.*2)
      by (apply list_elem_of_fmap; by exists (intent, t)).
    clear E. cbn [app imap].
    exists ("," +:+ NL +:+ NL
            +:+ String.concat NL
                  ([greeting t; ""; acknowledgment t; ""; "Next Steps:"]
                   ++ imap (λ i step, pretty (S i) +:+ ". " +:+ step) (next_steps t)
                   ++ [""; closing t; ""; "Best regards,";
                       "Customer Service Team"; "Your Bank"])
            +:+ d).
    split.
    + cbn [app String.concat]. by rewrite !append_assoc.
    + cbn [fmap list_fmap RESPONSE_TEMPLATES_items disclaimers_items snd] in Ht, Hd.
      repeat (apply elem_of_cons in Ht as [-> | Ht];
              [repeat (apply elem_of_cons in Hd as [-> | Hd];
                       [vm_compute; reflexivity |]);
               by apply elem_of_nil in Hd |]).
      by apply elem_of_nil in Ht.
  - eexists. split.
    + rewrite append_assoc. rewrite (append_assoc _ _ d). reflexivity.
    + cbn [fmap list_fmap disclaimers_items snd] in Hd.
      repeat (apply elem_of_cons in Hd as [-> | Hd];
              [vm_compute; reflexivity |]).
      by apply elem_of_nil in Hd.
Qed.

(** Every reply built by [generate_with_template], for a closed intent or
    through the generic text, with or without the disclaimer of
    [add_disclaimer], has a greeting, a closing and next steps for
    [evaluate_response_quality]: its score is at least 65 and its level is
    never low. *)
Theorem templated_reply_quality (py_str : pyval → string)
    (intent intent' : string) (personalization : gmap string pyval)
    (r : response) :
  response_text r
  = add_disclaimer (generate_with_template py_str intent personalization) intent' →
  let q := evaluate_response_quality r in
  has_greeting q = true ∧ has_closing q = true ∧ has_next_steps q = true
  ∧ (65 <= quality_score q)%Z ∧ quality_level q ≠ "low".
Proof.
  intros Htext.
  destruct (templated_reply_shape py_str intent intent' personalization)
    as (tail & Hshape & Hgood).
  rewrite Hshape in Htext.
  destruct (good_tail_flags _ _ r Htext Hgood) as (Hg & Hc & Hn).
  cbn zeta. split_and!; try done.
  - cbn [evaluate_response_quality quality_score] in *.
    cbn [evaluate_response_quality has_greeting has_closing has_next_steps]
      in Hg, Hc, Hn.
    rewrite Hg, Hc, Hn. cbn [points]. destruct (_ && _), (negb _); cbn; lia.
  - cbn [evaluate_response_quality quality_score quality_level] in *.
    cbn [evaluate_response_quality has_greeting has_closing has_next_steps]
      in Hg, Hc, Hn.
    rewrite Hg, Hc, Hn. destruct (_ && _), (negb _); cbn; discriminate.
Qed.

Lemma templated_reply_quality_witness :
  let r :=
    {| response_text :=
         add_disclaimer
           (generate_with_template (λ _, "John Doe") "fraud_complaint" ∅)
           "fraud_complaint";
       template_used := Some "fraud_complaint"; personalization_data := ∅;
       word_count := 90; character_count := 700 |} in
  has_greeting (evaluate_response_quality r) = true
  ∧ has_closing (evaluate_response_quality r) = true
  ∧ has_next_steps (evaluate_response_quality r) = true
  ∧ (65 <= quality_score (evaluate_response_quality r))%Z
  ∧ quality_level (evaluate_response_quality r) ≠ "low".
Proof.
  cbn zeta.
  apply (templated_reply_quality (λ _, "John Doe") "fraud_complaint"
           "fraud_complaint" ∅).
  reflexivity.
Defined.

(** ** Entities *)

Lemma lower_ascii_idem (c : ascii) : lower_ascii (lower_ascii c) = lower_ascii c.
Proof. each_ascii c. Qed.

Lemma lower_idem (s : string) : lower (lower s) = lower s.
Proof.
  induction s as [| c s IH]; [done |]. cbn [lower].
  by rewrite lower_ascii_idem, IH.
Qed.

Lemma entity_line_keeps (P : string → list string → Prop)
    (entities : gmap string (list string)) (line : string) :
  (∀ s, P (lower s) []) →
  (∀ s vs, Forall (λ v, v ≠ "") vs → P (lower s) vs) →
  map_Forall P entities → map_Forall P (entity_line entities line).
Proof.
  intros Hnil Hvs Hall. unfold entity_line.
  destruct (contains line ":"); [| done].
  destruct (split_first ":" line) as [entity_type values].
  destruct (negb _).
  - apply map_Forall_insert_2; [| done]. apply Hvs.
    apply Forall_forall. intros v Hv.
    apply list_elem_of_fmap in Hv as (v0 & -> & Hv0).
    by apply list_elem_of_filter in Hv0 as [Hne _].
  - apply map_Forall_insert_2; [apply Hnil | done].
Qed.

(** The entities that [extract_entities] returns have lower-case types
    and no empty value; without an answer of the model there are none. *)
Theorem extract_entities_values (response : option string) :
  (response = None ∨ response = Some "" → extract_entities response = ∅)
  ∧ ∀ entity_type values,
      extract_entities response !! entity_type = Some values →
      lower entity_type = entity_type ∧ Forall (λ v, v ≠ "") values.
Proof.
  split; [by intros [-> | ->] |].
  assert (Hall : map_Forall (λ k vs, lower k = k ∧ Forall (λ v, v ≠ "") vs)
                   (extract_entities response)).
  { destruct response as [[| c response] |]; try apply map_Forall_empty.
    cbn [extract_entities]. generalize (split_on LF (strip (String c response))).
    intros lines.
    assert (H0 : map_Forall (λ k vs, lower k = k ∧ Forall (λ v, v ≠ "") vs)
                   (∅ : gmap string (list string))) by apply map_Forall_empty.
    revert H0. generalize (∅ : gmap string (list string)).
    induction lines as [| line lines IH]; intros m Hm; [done |].
    cbn [foldl]. apply IH. apply entity_line_keeps; [| | done].
    - intros s. split; [apply lower_idem | constructor].
    - intros s vs Hvs. split; [apply lower_idem | done]. }
  intros entity_type values Hlook. by apply Hall in Hlook.
Qed.

Lemma extract_entities_values_witness :
  lower "names" = "names" ∧ Forall (λ v, v ≠ "") ["John Smith"; "Mary Lee"].
Proof.
  apply (extract_entities_values (Some "NAMES: John Smith, , Mary Lee
AMOUNTS: None")).
  vm_compute. reflexivity.
Defined.

(** ** The reply of the generator *)

Lemma split_ws_go_length (cur : option string) (s : string) :
  length (split_ws_go cur s)
  ≤ String.length s + match cur with Some _ => 1 | None => 0 end.
Proof.
  revert cur. induction s as [| c s IH]; intros cur; cbn [split_ws_go].
  - destruct cur; cbn; lia.
  - destruct (py_isspace c).
    + rewrite length_app. specialize (IH None). destruct cur; cbn in *; lia.
    + specialize (IH (Some (String c (default EmptyString cur)))). cbn in *. lia.
Qed.

(** [generate] returns a reply for every email with a subject and a body,
    whatever the model answered: the text is never empty (a failed or empty
    answer gives the apology), the template is the intent, and the word
    count does not exceed the character count. *)
Theorem generate_never_empty (email_data : gmap string pyval) (intent : string)
    (extracted_data : option extracted) (completion : option string) :
  is_Some (email_data !! "subject") →
  is_Some (email_data !! "body") →
  ∃ r, generate email_data intent extracted_data completion = inr r
       ∧ response_text r ≠ ""
       ∧ (completion = None ∨ completion = Some "" → response_text r = apology)
       ∧ (∀ text, completion = Some text → text ≠ "" → response_text r = text)
       ∧ template_used r = Some intent
       ∧ (0 <= word_count r <= character_count r)%Z.
Proof.
  intros [s Hs] [b Hb]. unfold generate, generate_response, dict_item.
  rewrite Hs, Hb. cbn [mbind exn_bind].
  assert (Hw : ∀ t, (0 <= Z.of_nat (length (split_ws t))
                     <= Z.of_nat (String.length t))%Z).
  { intros t. pose proof (split_ws_go_length None t) as H.
    cbv iota in H. unfold split_ws. lia. }
  destruct completion as [[| c text] |]; eexists;
    (split; [reflexivity |]); cbn [response_text template_used word_count
                                     character_count];
    split_and!;
    first [ done | apply Hw | by intros [[=] | [=]]
          | by intros t [= <-] | by intros t [= <-] ? ].
Qed.

Lemma generate_never_empty_witness :
  ∃ r, generate sample_email "loan_request" None None = inr r
       ∧ response_text r ≠ ""
       ∧ (@None string = None ∨ None = Some "" → response_text r = apology)
       ∧ (∀ text, None = Some text → text ≠ "" → response_text r = text)
       ∧ template_used r = Some "loan_request"
       ∧ (0 <= word_count r <= character_count r)%Z.
Proof.
  apply (generate_never_empty sample_email "loan_request" None None);
    by eexists; vm_compute; reflexivity.
Defined.

(** ** The distributions of the summary *)

Lemma summary_loop_app (before after : list result) (acc : summary * list Q) :
  summary_loop (before ++ after) acc
  = acc' ← summary_loop before acc; summary_loop after acc'.
Proof.
  revert acc. induction before as [| r before IH]; intros acc; [done |].
  cbn [app summary_loop]. destruct (summary_step acc r) as [e | acc1]; [done |].
  cbn [mbind exn_bind]. apply IH.
Qed.

Lemma summary_loop_distribution (results : list result)
    (acc acc' : summary * list Q) :
  summary_loop results acc = inr acc' →
  (∀ i, default 0 (intents acc'.1 !! i)
        = default 0 (intents acc.1 !! i)
          + length (filter (succeeded_with_intent i) results))
  ∧ (∀ a, default 0 (actions acc'.1 !! a)
          = default 0 (actions acc.1 !! a)
            + length (filter (succeeded_with_action a) results))
  ∧ high_confidence acc'.1 + low_confidence acc'.1
    ≤ high_confidence acc.1 + low_confidence acc.1
      + length (filter (λ r, success r = true) results)
  ∧ length acc'.2
    = length acc.2 + length (filter (λ r, success r = true) results).
Proof.
  revert acc. induction results as [| r results IH]; intros acc.
  - intros [= <-]. cbn [filter list_filter length]. split_and!; intros; lia.
  - cbn [summary_loop]. destruct (summary_step acc r) as [e | acc1] eqn:Hstep;
      [done |].
    cbn [mbind exn_bind]. intros Hloop.
    destruct (IH acc1 Hloop) as (Hi & Ha & Hc & Hl). clear IH Hloop.
    destruct acc as [sm confidences]. unfold summary_step in Hstep.
    rewrite !filter_cons.
    destruct (success r) eqn:Hs.
    + destruct (result_classification r) as [c |] eqn:Hrc; [| done].
      destruct (result_action r) as [a |] eqn:Hra; [| done].
      injection Hstep as <-.
      cbn [fst snd intents actions high_confidence low_confidence] in *.
      rewrite decide_True by done. split_and!.
      * intros i. rewrite Hi, count_up_lookup, filter_cons.
        destruct (decide (intent c = i)) as [Heq | Hne].
        -- rewrite decide_True by (split; [done | by rewrite Hrc, <- Heq]).
           cbn [length]. lia.
        -- rewrite decide_False; [lia |]. intros [_ H]. rewrite Hrc in H.
           by injection H.
      * intros a'. rewrite Ha, count_up_lookup, filter_cons.
        destruct (decide (action_type a = a')) as [Heq | Hne].
        -- rewrite decide_True by (split; [done | by rewrite Hra, <- Heq]).
           cbn [length]. lia.
        -- rewrite decide_False; [lia |]. intros [_ H]. rewrite Hra in H.
           by injection H.
      * cbn [length]. destruct (Qle_bool 0.8 (confidence c));
          [| destruct (Qlt_bool (confidence c) 0.6)]; lia.
      * rewrite Hl, length_app. cbn [length]. lia.
    + injection Hstep as <-. cbn [fst snd] in *.
      rewrite decide_False by done. split_and!.
      * intros i. rewrite Hi, filter_cons.
        rewrite decide_False; [done |]. intros [H _]. congruence.
      * intros a. rewrite Ha, filter_cons.
        rewrite decide_False; [done |]. intros [H _]. congruence.
      * done.
      * done.
Qed.

Lemma summary_loop_average (results : list result)
    (acc acc' : summary * list Q) :
  summary_loop results acc = inr acc' →
  avg_confidence acc'.1 = avg_confidence acc.1.
Proof.
  revert acc. induction results as [| r results IH]; intros acc.
  - by intros [= <-].
  - cbn [summary_loop].
    destruct (summary_step acc r) as [e | acc1] eqn:Hstep; [done |].
    cbn [mbind exn_bind]. intros Hloop. rewrite (IH _ Hloop).
    destruct acc as [s cs]. unfold summary_step in Hstep.
    destruct (success r); [| by injection Hstep as <-].
    destruct (result_classification r); [| done].
    destruct (result_action r); [| done].
    by injection Hstep as <-.
Qed.

(** For outcomes with the keys that the loop reads, [generate_summary]
    returns, and its distributions count the success outcomes: [intents]
    holds for each intent the number of successes classified with it,
    [actions] the number of successes with each action; an outcome that
    failed is counted in neither.  The high- and low-confidence counts
    together do not exceed [successful], and without a success the
    average stays 0.0. *)
Theorem generate_summary_distribution (results : list result) :
  Forall complete results →
  ∃ sm, generate_summary results = inr sm
        ∧ (∀ i, default 0 (intents sm !! i)
                = length (filter (succeeded_with_intent i) results))
        ∧ (∀ a, default 0 (actions sm !! a)
                = length (filter (succeeded_with_action a) results))
        ∧ high_confidence sm + low_confidence sm ≤ successful sm
        ∧ (successful sm = 0 → avg_confidence sm = 0.0%Q).
Proof.
  intros Hall. unfold generate_summary.
  match goal with
  | |- context [summary_loop results ?acc] =>
      destruct (summary_loop_counts results acc Hall)
        as ([sm confidences] & Hloop & H1 & H2 & H3);
      pose proof (summary_loop_distribution results acc _ Hloop)
        as (Hi & Ha & Hc & Hl);
      rewrite Hloop
  end.
  cbn [fst snd intents actions high_confidence low_confidence total_emails
       successful failed length] in *.
  cbn [mbind exn_bind mret exn_ret].
  case_bool_decide as Hnil; eexists; (split; [reflexivity |]);
    cbn [intents actions high_confidence low_confidence successful
         avg_confidence];
    (split_and!;
     [ intros i; by rewrite Hi, lookup_empty
     | intros a; by rewrite Ha, lookup_empty
     | lia
     | ]).
  - intros _. exact (summary_loop_average results _ _ Hloop).
  - intros H0. rewrite H2 in H0. rewrite H0 in Hl. destruct confidences; [done |].
    cbn in Hl. lia.
Qed.

Lemma generate_summary_distribution_witness :
  ∃ sm, generate_summary [failed_outcome; loan_outcome] = inr sm
        ∧ (∀ i, default 0 (intents sm !! i)
                = length (filter (succeeded_with_intent i)
                            [failed_outcome; loan_outcome]))
        ∧ (∀ a, default 0 (actions sm !! a)
                = length (filter (succeeded_with_action a)
                            [failed_outcome; loan_outcome]))
        ∧ high_confidence sm + low_confidence sm ≤ successful sm
        ∧ (successful sm = 0 → avg_confidence sm = 0.0%Q).
Proof.
  apply (generate_summary_distribution [failed_outcome; loan_outcome]).
  repeat apply Forall_cons_2; [discriminate | | constructor].
  intros _. split; eexists; reflexivity.
Defined.

Example summary_of_two_outcomes :
  (λ sm, (intents sm !! "loan_request", actions sm !! "escalate",
          successful sm, failed sm, high_confidence sm, avg_confidence sm))
    <$> generate_summary [failed_outcome; loan_outcome]
  = inr (Some 1, Some 1, 1, 1, 1, 0.9%Q).
Proof. vm_compute. reflexivity. Qed.

(** [generate_summary] reads the classification and the action of a
    success outcome with [result[...]]: a success outcome without a
    classification raises [KeyError] out of the summary, whatever comes
    after it. *)
Theorem generate_summary_incomplete (before after : list result) (r : result) :
  Forall complete before →
  success r = true →
  result_classification r = None →
  generate_summary (before ++ r :: after) = inl (KeyError "classification").
Proof.
  intros Hall Hs Hc. unfold generate_summary. rewrite summary_loop_app.
  match goal with
  | |- context [summary_loop before ?acc] =>
      destruct (summary_loop_counts before acc Hall) as ([sm confidences] & -> & _)
  end.
  cbn [mbind exn_bind summary_loop]. unfold summary_step. by rewrite Hs, Hc.
Qed.

Lemma generate_summary_incomplete_witness :
  generate_summary
    ([loan_outcome]
     ++ {| email_id := PStr "002"; subject := PStr "Question"; success := true;
           error := None; result_extracted_data := None;
           result_classification := None; result_response := None;
           result_action := None |}
        :: [failed_outcome])
  = inl (KeyError "classification").
Proof.
  apply (generate_summary_incomplete [loan_outcome]);
    [| reflexivity | reflexivity].
  apply Forall_cons_2; [| constructor]. intros _. split; eexists; reflexivity.
Defined.

(** ** Storage errors *)



Example batch_with_failing_storage :
  counts_of (@process_all_emails environment failing_storage
               (λ s, Some (PStr s)) five_files quiet_world)
  = inr (5, 4, 1)%nat.
Proof. vm_compute. reflexivity. Qed.

(** ** The decisions in an outcome *)

Section Decisions.
Context {world : Type} `{!Components world}.
Hypothesis classifier_closed :
  ∀ email extracted_data (w w' : world) c,
    classifier_classify email extracted_data w = (w', inr c) →
    intent c ∈ closed_intents.
Hypothesis agent_rules :
  ∀ email i q (w w' : world) a,
    agent_determine_action email i q w = (w', inr a) →
    a = determine_action email i q.

Lemma triple_ext_value {A} (P : result → Prop) (m : io world A) (V : A → Prop)
    (E : result → Prop) :
  (∀ w w' x, m w = (w', inr x) → V x) →
  (∀ r, P r → E r) →
  triple P (ext m) (λ x r, P r ∧ V x) E.
Proof.
  intros HV HE w r HP. unfold ext.
  destruct (m w) as [w' [e | x]] eqn:Hm; [auto |]. split; [done |]. by eapply HV.
Qed.

Lemma triple_pure {A} (V : Prop) (P : result → Prop) (m : io (St world) A)
    (Q : A → result → Prop) (E : result → Prop) :
  (V → triple P m Q E) → triple (λ r, P r ∧ V) m Q E.
Proof. intros H w r [HP HV]. by apply H. Qed.

Lemma triple_weaken {A} (P : result → Prop) (m : io (St world) A)
    (Q Q' : A → result → Prop) (E : result → Prop) :
  (∀ x r, Q x r → Q' x r) → triple P m Q E → triple P m Q' E.
Proof.
  intros HQ Hm w r HP. specialize (Hm w r HP).
  destruct (m (w, r)) as [[w' r'] [e | x]]; auto.
Qed.

Lemma undecided_agree (email : gmap string pyval) (r : result) :
  undecided r → decisions_agree email r.
Proof. intros [Hc _] c H. congruence. Qed.

Lemma decided_intent_agree (email : gmap string pyval) (c : classification)
    (r : result) :
  intent c ∈ closed_intents → decided_intent c r → decisions_agree email r.
Proof.
  intros Hin [(c' & Hc & Hi & _) Ha] c0 H. rewrite Hc in H. injection H as <-.
  split; [by rewrite Hi |]. intros a. by rewrite Ha.
Qed.

Lemma decided_action_agree (email : gmap string pyval) (c : classification)
    (r : result) :
  intent c ∈ closed_intents →
  decided_action c (determine_action email (intent c) (confidence c)) r →
  decisions_agree email r.
Proof.
  intros Hin [(c' & Hc & Hi & Hq) Ha] c0 H. rewrite Hc in H. injection H as <-.
  split; [by rewrite Hi |]. intros a. rewrite Ha, Hi, Hq. by intros [= <-].
Qed.

Lemma process_email_body_decisions (email : gmap string pyval) :
  triple undecided (process_email_body email)
    (λ _, decisions_agree email) (decisions_agree email).
Proof.
  unfold process_email_body.
  apply triple_bind with (Q := λ _, undecided).
  { destruct (py_truthy _); [| apply triple_ret].
    apply triple_bind with (Q := λ _, undecided);
      [apply triple_lift_exn, undecided_agree |]. intros items.
    apply triple_bind with (Q := λ _, undecided);
      [apply triple_ext, undecided_agree |]. intros [all_text sd].
    apply triple_bind with (Q := λ _, undecided);
      [by apply triple_update |]. intros _. apply triple_ret. }
  intros extracted_data.
  apply triple_bind
    with (Q := λ c r, undecided r ∧ intent c ∈ closed_intents).
  { apply triple_ext_value; [| apply undecided_agree].
    intros w w' c. apply classifier_closed. }
  intros c. apply triple_pure. intros Hin.
  pose proof (decided_intent_agree email c) as Hagree.
  apply triple_bind with (Q := λ _, decided_intent c).
  { apply triple_update. intros r [_ Ha]. split; [by eexists | done]. }
  intros _.
  apply triple_bind with (Q := λ _, decided_intent c);
    [apply triple_ext; auto |]. intros resp.
  apply triple_bind with (Q := λ _, decided_intent c);
    [by apply triple_update |]. intros _.
  apply triple_bind with (Q := λ _, decided_intent c);
    [apply triple_ext; auto |]. intros q.
  apply triple_bind with (Q := λ _, decided_intent c);
    [by apply triple_update |]. intros _.
  apply triple_bind
    with (Q := λ a r, decided_intent c r
                      ∧ a = determine_action email (intent c) (confidence c)).
  { apply triple_ext_value; [| auto]. intros w w' a. apply agent_rules. }
  intros a. apply triple_pure. intros ->.
  pose proof (decided_action_agree email c) as Hagree'.
  apply triple_bind with (Q := λ _, decided_action c
                                      (determine_action email (intent c) (confidence c))).
  { apply triple_update. by intros r [Hc _]. }
  intros _.
  apply triple_bind with (Q := λ _, decided_action c
                                      (determine_action email (intent c) (confidence c)));
    [apply triple_ext; auto |]. intros _.
  apply triple_update. intros r Hr. apply Hagree'; [done |]. exact Hr.
Qed.

Lemma process_email_decisions (email : gmap string pyval) (w w' : world)
    (r : result) :
  process_email email w = (w', inr r) → decisions_agree email r.
Proof.
  unfold process_email, dict_item.
  destruct (email !! "email_id") as [id |]; [| done].
  destruct (email !! "subject") as [subj |]; [| done].
  unfold mbind, io_bind, lift_exn, with_result, try_except.
  pose proof (process_email_body_decisions email w (new_result id subj)) as Hb.
  destruct (process_email_body email (w, new_result id subj))
    as [[w1 r1] [e | []]]; simpl.
  - intros [= <- <-]. by apply Hb.
  - intros [= <- <-]. by apply Hb.
Qed.
End Decisions.

Lemma classify_inr_closed (email : gmap string pyval) (response : option string)
    (c : classification) :
  classify email response = inr c → intent c ∈ closed_intents.
Proof.
  unfold classify. destruct (classify_intent email response) as [e | upstream];
    [done |].
  intros [= <-]. apply validate_intent_closed.
Qed.

(** In the pipeline of the repository, every outcome of [process_email],
    a success or a failure, carries consistent decisions: the intent that
    it records is in the closed set, and the action that it records is the
    one that [determine_action] gives for the email and the recorded intent
    and confidence. *)
Theorem outcome_decisions_agree (email : gmap string pyval) (w : environment) :
  identified email →
  ∃ w' r, process_email email w = (w', inr r)
          ∧ email_id r = dict_get email "email_id" PNone
          ∧ decisions_agree email r.
Proof.
  intros Hid.
  destruct (process_email_recorded email w Hid) as (w' & r & Hrun & Hrec).
  exists w', r. split_and!; [done | |].
  - destruct Hrec as (id & subj & Hi & _ & -> & _). unfold dict_get. by rewrite Hi.
  - eapply process_email_decisions; [| | exact Hrun].
    + intros e ed w0 w1 c. cbn [classifier_classify repository_components].
      unfold with_completion. destruct (classify e None); [by intros [= _ ?] |].
      destruct (next_completion w0) as [w2 answer]. intros [= _ H].
      by eapply classify_inr_closed.
    + intros e i q w0 w1 a. by intros [= _ <-].
Qed.

Lemma outcome_decisions_agree_witness :
  ∃ w' r, process_email sample_email quiet_world = (w', inr r)
          ∧ email_id r = dict_get sample_email "email_id" PNone
          ∧ decisions_agree sample_email r.
Proof.
  apply (outcome_decisions_agree sample_email quiet_world).
  split; by eexists; vm_compute; reflexivity.
Defined.

(** ** The loader *)

Lemma load_email_sound (fromisoformat : string → option pyval)
    (email_data email : gmap string pyval) :
  load_email fromisoformat email_data = Some email →
  Forall (λ field, is_Some (email !! field))
    ["email_id"; "sender"; "subject"; "body"; "date"]
  ∧ ∀ k, k ≠ "date" → email !! k = email_data !! k.
Proof.
  unfold load_email.
  destruct (forallb _ _) eqn:Hall; [| done].
  rewrite forallb_forall in Hall. intros Hload.
  assert (Hhas : ∀ field,
            field ∈ ["email_id"; "sender"; "subject"; "body"; "date"] →
            is_Some (email_data !! field)).
  { intros field Hin. apply list_elem_of_In, Hall in Hin.
    by apply bool_decide_eq_true in Hin. }
  clear Hall.
  assert (Hkeep : email = email_data
                  ∨ ∃ parsed, email = <["date" := parsed]> email_data).
  { destruct (email_data !! "date") as [[| | | | date |] |];
      try (injection Hload as <-; by left).
    destruct (fromisoformat _) as [parsed |]; [| done].
    injection Hload as <-. right. by eexists. }
  destruct Hkeep as [-> | [parsed ->]].
  - split; [| done]. apply Forall_forall. intros field Hin.
    by apply Hhas.
  - split.
    + apply Forall_forall. intros field Hin. apply Hhas in Hin.
      destruct (decide (field = "date")) as [-> | Hne].
      * rewrite lookup_insert_eq. by eexists.
      * by rewrite lookup_insert_ne.
    + intros k Hk. by rewrite lookup_insert_ne.
Qed.

(** [load_all_emails] returns at most one email for each file, in the
    order of the files: the ids of the emails are a sublist of the ids in
    the files.  Every email that it returns has the five required fields,
    and is the content of one of the files, with the same value under
    every key but [date]. *)
Theorem load_all_emails_sound (fromisoformat : string → option pyval)
    (files : list (option (gmap string pyval))) :
  let emails := load_all_emails fromisoformat files in
  length emails ≤ length files
  ∧ sublist ((λ email, email !! "email_id") <$> emails)
            ((λ file, file ≫= (λ email_data, email_data !! "email_id"))
               <$> files)
  ∧ Forall (λ email,
              Forall (λ field, is_Some (email !! field))
                ["email_id"; "sender"; "subject"; "body"; "date"]
              ∧ ∃ email_data, Some email_data ∈ files
                  ∧ ∀ k, k ≠ "date" → email !! k = email_data !! k)
      emails.
Proof.
  cbn zeta. unfold load_all_emails. split_and!.
  - induction files as [| file files IH]; [done |].
    cbn [omap list_omap]. destruct (file ≫= _); cbn [length]; lia.
  - induction files as [| file files IH]; [done |].
    cbn [omap list_omap fmap list_fmap].
    destruct file as [email_data |]; cbn [mbind option_bind].
    + destruct (load_email fromisoformat email_data) as [email |] eqn:Hload.
      * apply load_email_sound in Hload as [_ Hkeys].
        cbn [fmap list_fmap]. rewrite (Hkeys "email_id") by done.
        by apply sublist_skip.
      * by apply sublist_cons.
    + by apply sublist_cons.
  - apply Forall_forall. intros email Hin.
    apply list_elem_of_omap in Hin as ([email_data |] & Hfile & Hload); [| done].
    apply load_email_sound in Hload as [Hfields Hkeys].
    split; [done |]. by exists email_data.
Qed.

(** A date that [fromisoformat] rejects makes the loader drop the file. *)
Example load_email_bad_date :
  load_email (λ _, None) (email_record "004" []) = None.
Proof. vm_compute. reflexivity. Qed.
